(** * Jpdf2json: the PDF-to-JSON extraction service of [main.py]

    A shallow embedding of [main.py]: the module initialisation (credential
    check), the text extractor [extract_text_from_pdf] and the request handler
    [extract_data_from_pdf], together with the parts of Python and of the
    libraries the handler relies on ([str.strip], [str.replace],
    [json.loads], the rendering done by [JSONResponse], [str] of an
    exception). *)

From Stdlib Require Import ZArith NArith List String Ascii Strings.Byte Lia Bool.
From stdpp Require Import base list gmap.
Import ListNotations.

Set Warnings "-register-all".
Local Open Scope N_scope.

(** ** Python strings

    A Python [str] is a sequence of Unicode code points. *)

Definition str := list N.

(** String literals of the source are written as Rocq strings (the bytes of
    their UTF-8 encoding) and decoded into code points by [py]. *)

Module Lit.

Fixpoint utf8_decode (need : nat) (acc : N) (bs : list N) : str :=
  match bs with
  | [] => []
  | b :: rest =>
      match need with
      | O =>
          if b <? 128 then b :: utf8_decode 0 0 rest
          else if b <? 224 then utf8_decode 1 (N.land b 31) rest
          else if b <? 240 then utf8_decode 2 (N.land b 15) rest
          else utf8_decode 3 (N.land b 7) rest
      | S O => (acc * 64 + N.land b 63) :: utf8_decode 0 0 rest
      | S k => utf8_decode k (acc * 64 + N.land b 63) rest
      end
  end.

End Lit.

Definition py (s : string) : str :=
  Lit.utf8_decode 0 0 (map N_of_ascii (list_ascii_of_string s)).

Module Str.

(** [Py_UNICODE_ISSPACE]: the characters [str.strip()] removes. *)
Definition isspace (c : N) : bool :=
  ((9 <=? c) && (c <=? 13)) || ((28 <=? c) && (c <=? 32))
  || (c =? 133) || (c =? 160) || (c =? 5760)
  || ((8192 <=? c) && (c <=? 8202))
  || (c =? 8232) || (c =? 8233) || (c =? 8239) || (c =? 8287)
  || (c =? 12288).

Fixpoint lstrip (s : str) : str :=
  match s with
  | c :: rest => if isspace c then lstrip rest else s
  | [] => []
  end.

Definition rstrip (s : str) : str := rev (lstrip (rev s)).

(** [s.strip()] *)
Definition strip (s : str) : str := rstrip (lstrip s).

(** [s.startswith(prefix)] *)
Fixpoint startswith (prefix s : str) : bool :=
  match prefix, s with
  | [], _ => true
  | p :: ps, c :: cs => (p =? c) && startswith ps cs
  | _ :: _, [] => false
  end.

(** [sub in s] *)
Fixpoint contains (sub s : str) : bool :=
  startswith sub s
  || match s with
     | [] => false
     | _ :: rest => contains sub rest
     end.

(** [s.replace(old, new)] for a non-empty [old]: the string is scanned from
    the left, every occurrence found is replaced and the scan resumes after
    it.  [skip] counts the characters of the occurrence just replaced that
    are still to be passed over. *)
Fixpoint replace_from (old new : str) (skip : nat) (s : str) : str :=
  match s with
  | [] => []
  | c :: rest =>
      match skip with
      | S k => replace_from old new k rest
      | O =>
          if startswith old s
          then new ++ replace_from old new (length old - 1) rest
          else c :: replace_from old new 0 rest
      end
  end.

(** [s.replace(old, new)]; with an empty [old], Python inserts [new] before
    every character and at the end. *)
Definition replace (old new s : str) : str :=
  match old with
  | [] => new ++ flat_map (fun c => c :: new) s
  | _ :: _ => replace_from old new 0 s
  end.

(** The substring relation behind [contains]. *)
Definition occurs (sub s : str) : Prop :=
  exists pre post, s = pre ++ sub ++ post.

End Str.

(** ** Fence stripping ([main.py], line 144) *)

Definition FENCE_JSON : str := py "```json".
Definition FENCE : str := py "```".

(** [.replace('```json', '').replace('```', '')] *)
Definition strip_fences (s : str) : str :=
  Str.replace FENCE [] (Str.replace FENCE_JSON [] s).

(** [response.text.strip().replace('```json', '').replace('```', '')] *)
Definition clean_response (text : str) : str :=
  strip_fences (Str.strip text).

(** ** JSON values and [json.loads] *)

Module Json.

(** A Python [float] as [json.loads] produces it: [float(lexeme)] is
    [inf] when the decimal rounds beyond the largest binary64, and is
    otherwise kept as the decimal it was read from, [digits * 10^exp10];
    the rounding to binary64 itself is not modelled. *)
Inductive pyfloat :=
| FNaN
| FInf (negative : bool)
| FDec (negative : bool) (digits : N) (exp10 : Z).

(** The Python objects [json.loads] builds.  A [dict] keeps its keys in
    insertion order and has no duplicate key. *)
Inductive value :=
| JNone
| JBool (b : bool)
| JInt (n : Z)
| JFloat (f : pyfloat)
| JStr (s : str)
| JList (items : list value)
| JDict (items : list (str * value)).

(** [d[k] = v] *)
Fixpoint dict_set (k : str) (v : value) (d : list (str * value))
  : list (str * value) :=
  match d with
  | [] => [(k, v)]
  | (k', v') :: rest =>
      if bool_decide (k = k') then (k, v) :: rest
      else (k', v') :: dict_set k v rest
  end.

(** [dict(pairs)] *)
Definition dict_of (pairs : list (str * value)) : list (str * value) :=
  fold_left (fun d kv => dict_set kv.1 kv.2 d) pairs [].

(** [d.get(k)] *)
Fixpoint dict_get (k : str) (d : list (str * value)) : option value :=
  match d with
  | [] => None
  | (k', v) :: rest => if bool_decide (k = k') then Some v else dict_get k rest
  end.

(** Interpreter settings the decoder depends on: how deep arrays and
    objects may nest before [RecursionError], and
    [sys.get_int_max_str_digits()] (0 for no limit). *)
Record config := {
  recursion_limit : nat;
  int_max_str_digits : nat
}.

Inductive outcome (A : Type) :=
| Parsed (a : A) (rest : str)
| Malformed            (* json.JSONDecodeError *)
| TooDeep              (* RecursionError *)
| IntTooLong           (* ValueError of the int conversion *)
| OutOfSteps.
Arguments Parsed {A} a rest.
Arguments Malformed {A}.
Arguments TooDeep {A}.
Arguments IntTooLong {A}.
Arguments OutOfSteps {A}.

(** [WHITESPACE = re.compile(r'[ \t\n\r]*')] *)
Definition is_ws (c : N) : bool :=
  (c =? 32) || (c =? 9) || (c =? 10) || (c =? 13).

Fixpoint skip_ws (s : str) : str :=
  match s with
  | c :: rest => if is_ws c then skip_ws rest else s
  | [] => []
  end.

Definition isdigit (c : N) : bool := (48 <=? c) && (c <=? 57).

Fixpoint span_digits (s : str) : str * str :=
  match s with
  | c :: rest =>
      if isdigit c then let '(ds, r) := span_digits rest in (c :: ds, r)
      else ([], s)
  | [] => ([], [])
  end.

Fixpoint digits_value (acc : N) (ds : str) : N :=
  match ds with
  | [] => acc
  | d :: rest => digits_value (acc * 10 + (d - 48)) rest
  end.

Definition hexval (c : N) : option N :=
  if (48 <=? c) && (c <=? 57) then Some (c - 48)
  else if (65 <=? c) && (c <=? 70) then Some (c - 55)
  else if (97 <=? c) && (c <=? 102) then Some (c - 87)
  else None.

(** [_decode_uXXXX] *)
Definition hex4 (a b c d : N) : option N :=
  match hexval a, hexval b, hexval c, hexval d with
  | Some x, Some y, Some z, Some w => Some (((x * 16 + y) * 16 + z) * 16 + w)
  | _, _, _, _ => None
  end.

Definition is_high_surrogate (c : N) : bool := (55296 <=? c) && (c <=? 56319).
Definition is_low_surrogate (c : N) : bool := (56320 <=? c) && (c <=? 57343).
Definition is_surrogate (c : N) : bool := (55296 <=? c) && (c <=? 57343).

Definition join_surrogates (hi lo : N) : N :=
  65536 + N.lor (N.shiftl (hi - 55296) 10) (lo - 56320).

(** The [BACKSLASH] table of [json.decoder]. *)
Definition backslash (esc : N) : option N :=
  if esc =? 34 then Some 34
  else if esc =? 92 then Some 92
  else if esc =? 47 then Some 47
  else if esc =? 98 then Some 8
  else if esc =? 102 then Some 12
  else if esc =? 110 then Some 10
  else if esc =? 114 then Some 13
  else if esc =? 116 then Some 9
  else None.

(** [scanstring(s, end, strict=True)], entered after the opening quote;
    [chunks] holds the characters decoded so far, last first.  [None] is
    a [JSONDecodeError]. *)
Fixpoint scanstring (s : str) (chunks : str) : option (str * str) :=
  match s with
  | [] => None
  | c :: rest =>
      if c =? 34 then Some (rev chunks, rest)
      else if c =? 92 then
        match rest with
        | [] => None
        | esc :: rest1 =>
            if esc =? 117 then
              match rest1 with
              | h1 :: h2 :: h3 :: h4 :: rest2 =>
                  match hex4 h1 h2 h3 h4 with
                  | None => None
                  | Some uni =>
                      if is_high_surrogate uni then
                        match rest2 with
                        | b :: u :: l1 :: l2 :: l3 :: l4 :: rest3 =>
                            if (b =? 92) && (u =? 117) then
                              match hex4 l1 l2 l3 l4 with
                              | None => None
                              | Some uni2 =>
                                  if is_low_surrogate uni2
                                  then scanstring rest3
                                         (join_surrogates uni uni2 :: chunks)
                                  else scanstring rest2 (uni :: chunks)
                              end
                            else scanstring rest2 (uni :: chunks)
                        | b :: u :: _ =>
                            if (b =? 92) && (u =? 117) then None
                            else scanstring rest2 (uni :: chunks)
                        | _ => scanstring rest2 (uni :: chunks)
                        end
                      else scanstring rest2 (uni :: chunks)
                  end
              | _ => None
              end
            else
              match backslash esc with
              | Some ch => scanstring rest1 (ch :: chunks)
              | None => None
              end
        end
      else if c <? 32 then None
      else scanstring rest (c :: chunks)
  end.

(** [float(lexeme)] overflows to infinity from [2^1024 - 2^970] on, the
    midpoint between the largest binary64 and [2^1024]. *)
Definition overflows (digits : N) (exp10 : Z) : bool :=
  let threshold := (2 ^ 1024 - 2 ^ 970)%Z in
  if (0 <=? exp10)%Z
  then (threshold <=? Z.of_N digits * 10 ^ exp10)%Z
  else (threshold * 10 ^ (- exp10) <=? Z.of_N digits)%Z.

Definition float_of_decimal (negative : bool) (digits : N) (exp10 : Z)
  : pyfloat :=
  if overflows digits exp10 then FInf negative else FDec negative digits exp10.

Definition int_of_digits (negative : bool) (digits : N) : Z :=
  if negative then (- Z.of_N digits)%Z else Z.of_N digits.

Definition split_sign (s : str) : bool * str :=
  match s with
  | c :: rest => if c =? 45 then (true, rest) else (false, s)
  | [] => (false, s)
  end.

(** The integer part of [NUMBER_RE]: [0|[1-9][0-9]*]. *)
Definition int_part (s : str) : option (str * str) :=
  match s with
  | d :: rest =>
      if d =? 48 then Some ([d], rest)
      else if isdigit d then let '(ds, r) := span_digits rest in Some (d :: ds, r)
      else None
  | [] => None
  end.

(** The optional group [(\.[0-9]+)?]. *)
Definition frac_part (s : str) : str * str :=
  match s with
  | c :: rest =>
      if c =? 46 then
        match span_digits rest with
        | ([], _) => ([], s)
        | (fs, r) => (fs, r)
        end
      else ([], s)
  | [] => ([], s)
  end.

(** The optional group [([eE][-+]?[0-9]+)?]. *)
Definition exp_part (s : str) : option Z * str :=
  match s with
  | c :: rest =>
      if (c =? 101) || (c =? 69) then
        let '(negative, rest1) :=
          match rest with
          | x :: rest2 =>
              if x =? 43 then (false, rest2)
              else if x =? 45 then (true, rest2)
              else (false, rest)
          | [] => (false, rest)
          end in
        match span_digits rest1 with
        | ([], _) => (None, s)
        | (es, r) => (Some (int_of_digits negative (digits_value 0 es)), r)
        end
      else (None, s)
  | [] => (None, s)
  end.

(** [match_number] and the conversion that follows it in the scanner:
    [int(integer)] without fraction and exponent, else
    [float(integer + frac + exp)]. *)
Definition match_number (cfg : config) (s : str) : option (outcome value) :=
  let '(negative, s1) := split_sign s in
  match int_part s1 with
  | None => None
  | Some (ints, s2) =>
      let '(frac, s3) := frac_part s2 in
      let '(exp, s4) := exp_part s3 in
      match frac, exp with
      | [], None =>
          if (negb (Nat.eqb (int_max_str_digits cfg) 0)
              && Nat.ltb (int_max_str_digits cfg) (length ints))%nat
          then Some IntTooLong
          else Some (Parsed (JInt (int_of_digits negative (digits_value 0 ints))) s4)
      | _, _ =>
          let e := (default 0 exp - Z.of_nat (length frac))%Z in
          Some (Parsed (JFloat (float_of_decimal negative
                                  (digits_value 0 (ints ++ frac)) e)) s4)
      end
  end.

(** [scan_once] of [json.scanner] with [JSONArray] and [JSONObject] of
    [json.decoder].  [depth] is the nesting still allowed; [steps] bounds
    the number of calls and is given generously by [loads].
    [array_items] is the [while True] loop of [JSONArray], entered at the
    start of a value; [object_items] is the loop of [JSONObject], entered
    after the opening quote of a key. *)
Fixpoint scan_once (steps : nat) (cfg : config) (depth : nat) (s : str)
  : outcome value :=
  match steps with
  | O => OutOfSteps
  | S n =>
      match s with
      | [] => Malformed
      | c :: rest =>
          if c =? 34 then
            match scanstring rest [] with
            | Some (text, r) => Parsed (JStr text) r
            | None => Malformed
            end
          else if c =? 123 then
            match depth with
            | O => TooDeep
            | S d =>
                match skip_ws rest with
                | c1 :: r1 =>
                    if c1 =? 125 then Parsed (JDict []) r1
                    else if c1 =? 34 then object_items n cfg d r1 []
                    else Malformed
                | [] => Malformed
                end
            end
          else if c =? 91 then
            match depth with
            | O => TooDeep
            | S d =>
                match skip_ws rest with
                | c1 :: r1 =>
                    if c1 =? 93 then Parsed (JList []) r1
                    else array_items n cfg d (skip_ws rest) []
                | [] => Malformed
                end
            end
          else if Str.startswith (py "null") s then Parsed JNone (drop 4 s)
          else if Str.startswith (py "true") s then Parsed (JBool true) (drop 4 s)
          else if Str.startswith (py "false") s then Parsed (JBool false) (drop 5 s)
          else
            match match_number cfg s with
            | Some o => o
            | None =>
                if Str.startswith (py "NaN") s
                then Parsed (JFloat FNaN) (drop 3 s)
                else if Str.startswith (py "Infinity") s
                then Parsed (JFloat (FInf false)) (drop 8 s)
                else if Str.startswith (py "-Infinity") s
                then Parsed (JFloat (FInf true)) (drop 9 s)
                else Malformed
            end
      end
  end
with array_items (steps : nat) (cfg : config) (depth : nat) (s : str)
       (values : list value) : outcome value :=
  match steps with
  | O => OutOfSteps
  | S n =>
      match scan_once n cfg depth s with
      | Parsed v rest =>
          match skip_ws rest with
          | c :: rest1 =>
              if c =? 93 then Parsed (JList (rev (v :: values))) rest1
              else if c =? 44
              then array_items n cfg depth (skip_ws rest1) (v :: values)
              else Malformed
          | [] => Malformed
          end
      | other => other
      end
  end
with object_items (steps : nat) (cfg : config) (depth : nat) (s : str)
       (pairs : list (str * value)) : outcome value :=
  match steps with
  | O => OutOfSteps
  | S n =>
      match scanstring s [] with
      | None => Malformed
      | Some (key, rest) =>
          match skip_ws rest with
          | colon :: rest1 =>
              if colon =? 58 then
                match scan_once n cfg depth (skip_ws rest1) with
                | Parsed v rest2 =>
                    match skip_ws rest2 with
                    | c :: rest3 =>
                        if c =? 125
                        then Parsed (JDict (dict_of (rev ((key, v) :: pairs)))) rest3
                        else if c =? 44 then
                          match skip_ws rest3 with
                          | q :: rest4 =>
                              if q =? 34
                              then object_items n cfg depth rest4 ((key, v) :: pairs)
                              else Malformed
                          | [] => Malformed
                          end
                        else Malformed
                    | [] => Malformed
                    end
                | other => other
                end
              else Malformed
          | [] => Malformed
          end
      end
  end.

(** [json.loads(s)] for a [str]: a leading byte-order mark is refused,
    then [JSONDecoder.decode]: whitespace, one value, whitespace, end. *)
Definition loads (cfg : config) (s : str) : outcome value :=
  if Str.startswith [65279] s then Malformed
  else
    match scan_once (2 * length s + 1) cfg (recursion_limit cfg) (skip_ws s) with
    | Parsed v rest =>
        match skip_ws rest with
        | [] => Parsed v []
        | _ :: _ => Malformed
        end
    | other => other
    end.

(** [json.dumps(content, ensure_ascii=False, allow_nan=False, ...)]
    raises [ValueError] on a [nan] or infinite float. *)
Definition finite (f : pyfloat) : bool :=
  match f with
  | FDec _ _ _ => true
  | FNaN | FInf _ => false
  end.

Fixpoint floats_finite (v : value) : bool :=
  match v with
  | JNone | JBool _ | JInt _ | JStr _ => true
  | JFloat f => finite f
  | JList items => forallb floats_finite items
  | JDict items => forallb (fun kv => floats_finite kv.2) items
  end.

(** [.encode("utf-8")] of the dumped text raises [UnicodeEncodeError] on a
    surrogate code point, which [ensure_ascii=False] leaves as it is. *)
Definition encodable (s : str) : bool :=
  forallb (fun c => negb (is_surrogate c)) s.

Fixpoint strings_encodable (v : value) : bool :=
  match v with
  | JNone | JBool _ | JInt _ | JFloat _ => true
  | JStr s => encodable s
  | JList items => forallb strings_encodable items
  | JDict items =>
      forallb (fun kv => encodable kv.1 && strings_encodable kv.2) items
  end.

(** What [JSONResponse.render] accepts. *)
Definition renderable (v : value) : bool :=
  floats_finite v && strings_encodable v.

End Json.

(** ** Exceptions and effects *)

(** The exceptions the handler tells apart: FastAPI's [HTTPException],
    [json.JSONDecodeError], and any other subclass of [Exception], kept as
    its class name and what [str(e)] gives.  Every value of [exn] is an
    [Exception]: what derives from [BaseException] only
    ([asyncio.CancelledError], [KeyboardInterrupt], [SystemExit]) is not
    caught by [except Exception] and is outside this model. *)
Inductive exn :=
| HTTPException (status_code : N) (detail : str)
| JSONDecodeError (msg doc : str) (pos : N)
| Exception_ (class_name message : str).

Definition is_JSONDecodeError (e : exn) : bool :=
  match e with
  | JSONDecodeError _ _ _ => true
  | _ => false
  end.

Fixpoint uint_str (u : Decimal.uint) : str :=
  match u with
  | Decimal.Nil => []
  | Decimal.D0 r => 48 :: uint_str r
  | Decimal.D1 r => 49 :: uint_str r
  | Decimal.D2 r => 50 :: uint_str r
  | Decimal.D3 r => 51 :: uint_str r
  | Decimal.D4 r => 52 :: uint_str r
  | Decimal.D5 r => 53 :: uint_str r
  | Decimal.D6 r => 54 :: uint_str r
  | Decimal.D7 r => 55 :: uint_str r
  | Decimal.D8 r => 56 :: uint_str r
  | Decimal.D9 r => 57 :: uint_str r
  end.

(** [str(n)] of a non-negative [int] *)
Definition str_N (n : N) : str := uint_str (N.to_uint n).

(** [doc.count('\n', 0, pos) + 1] *)
Definition lineno (doc : str) (pos : N) : N :=
  N.of_nat (length (filter (fun c => c = 10) (take (N.to_nat pos) doc))) + 1.

(** [doc.rfind('\n', 0, pos)], scanning with index [i] *)
Fixpoint rfind_newline (s : str) (i last : Z) : Z :=
  match s with
  | [] => last
  | c :: rest => rfind_newline rest (i + 1)%Z (if c =? 10 then i else last)
  end.

(** [pos - doc.rfind('\n', 0, pos)] *)
Definition colno (doc : str) (pos : N) : N :=
  Z.to_N (Z.of_N pos - rfind_newline (take (N.to_nat pos) doc) 0 (-1))%Z.

(** [str(e)]: Starlette's [HTTPException.__str__] gives
    [f"{status_code}: {detail}"], [JSONDecodeError] formats
    ['%s: line %d column %d (char %d)']. *)
Definition str_exn (e : exn) : str :=
  match e with
  | HTTPException status_code detail => str_N status_code ++ py ": " ++ detail
  | JSONDecodeError msg doc pos =>
      msg ++ py ": line " ++ str_N (lineno doc pos)
          ++ py " column " ++ str_N (colno doc pos)
          ++ py " (char " ++ str_N pos ++ py ")"
  | Exception_ _ message => message
  end.

Inductive result (A : Type) :=
| Return (a : A)
| Raise (e : exn).
Arguments Return {A} a.
Arguments Raise {A} e.

#[global] Instance result_ret : MRet result := fun A a => Return a.
#[global] Instance result_bind : MBind result :=
  fun A B f m =>
    match m with
    | Return a => f a
    | Raise e => Raise e
    end.

(** Code with effects on a state [S] that may raise: the state reached is
    kept when an exception leaves the code. *)
Definition st (S A : Type) : Type := S -> result A * S.

#[global] Instance st_ret {S} : MRet (st S) := fun A a s => (Return a, s).
#[global] Instance st_bind {S} : MBind (st S) :=
  fun A B f m s =>
    match m s with
    | (Return a, s') => f a s'
    | (Raise e, s') => (Raise e, s')
    end.

Definition lift {S A} (r : result A) : st S A := fun s => (r, s).
Definition raise {S A} (e : exn) : st S A := fun s => (Raise e, s).
Definition get_state {S} : st S S := fun s => (Return s, s).
Definition modify {S} (f : S -> S) : st S unit := fun s => (Return tt, f s).

(** [try: body / except Exception as e: handler(e)], for the exceptions of
    [exn], which are all [Exception]s. *)
Definition try_except {S A} (body : st S A) (handler : exn -> st S A) : st S A :=
  fun s =>
    match body s with
    | (Raise e, s') => handler e s'
    | (Return a, s') => (Return a, s')
    end.

(** [try: body / except cls: handler] *)
Definition try_except_cls {S A} (cls : exn -> bool)
    (body : st S A) (handler : exn -> st S A) : st S A :=
  fun s =>
    match body s with
    | (Raise e, s') => if cls e then handler e s' else (Raise e, s')
    | (Return a, s') => (Return a, s')
    end.

(** ** The collaborators of the handler *)

Definition bytes := list byte.

(** [UploadFile]: what [await pdf_file.read()] yields. *)
Record UploadFile := { upload_read : result bytes }.

(** The external capabilities [main.py] consumes: pypdf's [PdfReader] with
    its pages, the Gemini model with the [text] property of its response,
    [json.loads], and the rendering [JSONResponse] performs on its content
    when it is constructed ([render_error] is what that rendering raises,
    if anything). *)
Class Collaborators := {
  Page : Type;
  PdfReader : bytes -> result (list Page);
  page_extract_text : Page -> result (option str);
  GenerateContentResponse : Type;
  model_generate_content : str -> result GenerateContentResponse;
  response_text : GenerateContentResponse -> result str;
  json_loads : str -> result Json.value;
  render_error : Json.value -> option exn
}.

(** ** [main.py] *)

Definition PROMPT : str := py "
You are a real estate data extraction expert. I will provide you with the text content of a Japanese real estate PDF document. Your task is to extract specific real estate information and format it as a single JSON object.

The output JSON MUST have the following keys in English. The extracted values should also be translated into English. If a value is not present in the document or a direct translation is not possible (e.g., a specific address), use null.

- **Property Type:** Look for '戸建て', 'マンション', '土地', '1棟マンション', 'アパート'. Translate the found value to English (e.g., '戸建て' -> 'Detached House').
- **Price:** Look for '価格', '値段', '販売価格'.
- **Address:** Look for '所在', '所在地', '住所'.
- **Area:** Look for '面積', '土地面積', '延床面積', '延床', '敷地面積', '建物面積'.
- **Ownership:** Look for '所有権', '借地権', '敷地権'. Translate to English (e.g., '所有権' -> 'Freehold').
- **Shared Ownership:** Look for '持ち分', '共有持分'.
- **Land Category:** Look for '地目', '宅地', '山林'. Translate to English.
- **Road Info:** Look for '道路', '幅員', '長さ', '接道'.
- **Coverage & Floor-to-Area Ratio:** Look for '建ぺい率', '容積率'.
- **Zoning:** Look for '用途地域'. Translate to English.
- **Utilities:** Look for '水道', '下水', 'ガス', '都市ガス', '電気'. Translate to English.
- **Status:** Look for '現況', '居住中', '空き家', '空室'. Translate to English (e.g., '居住中' -> 'Occupied').
- **Transportation:** Look for '駅', '徒歩', '分', '沿線', '交通'.
- **Construction Date:** Look for '築年月', '建築年月', '増改築'.
- **Floor Plan & Structure:** Look for '間取り', '構造', '鉄筋コンクリート', '鉄筋鉄骨コンクリート', '鉄骨', '重量鉄骨', '軽量鉄骨', '木造'. Translate to English (e.g., '木造' -> 'Wooden').
- **Parking:** Look for '車庫', '駐車場'. Translate to English.

The output MUST be a valid JSON object. Do not include any text before or after the JSON.
".

Record JSONResponse := {
  status_code : N;
  content : Json.value;
  media_type : str;
  headers : list (str * str)
}.

(** The requests sent to the AI service, oldest first. *)
Definition outbound := list str.

Section Handler.

Context `{Collaborators}.

(** [x or ""] *)
Definition or_empty (x : option str) : str :=
  match x with
  | Some (c :: rest) => c :: rest
  | Some [] | None => []
  end.

(** The loop of [extract_text_from_pdf]: [text += page.extract_text() or ""] *)
Fixpoint pages_loop (text : str) (pages : list Page) : result str :=
  match pages with
  | [] => Return text
  | page :: rest =>
      t ← page_extract_text page;
      pages_loop (text ++ or_empty t) rest
  end.

Definition extract_text_from_pdf (file_stream : bytes) : result str :=
  reader ← PdfReader file_stream;
  pages_loop [] reader.

(** [model.generate_content(full_prompt)]: one request to the AI service. *)
Definition generate_content (prompt : str) : st outbound GenerateContentResponse :=
  fun sent => (model_generate_content prompt, sent ++ [prompt]).

(** [JSONResponse(content=..., media_type=..., headers=...)]: the content
    is rendered by the constructor. *)
Definition new_JSONResponse (content : Json.value) (media_type : str)
    (headers : list (str * str)) : result JSONResponse :=
  match render_error content with
  | Some e => Raise e
  | None =>
      Return {| status_code := 200; content := content;
                media_type := media_type; headers := headers |}
  end.

Definition full_prompt_of (extracted_text : str) : str :=
  PROMPT ++ py "

Document Text:
" ++ extracted_text.

Definition extract_data_from_pdf (pdf_file : UploadFile) : st outbound JSONResponse :=
  try_except
    (content ← lift (upload_read pdf_file);
     let file_stream := content in
     extracted_text ← lift (extract_text_from_pdf file_stream);
     match extracted_text with
     | [] =>
         raise (HTTPException 400 (py "Could not extract text from the PDF file."))
     | _ :: _ =>
         let full_prompt := full_prompt_of extracted_text in
         response ← generate_content full_prompt;
         extracted_data ←
           try_except_cls is_JSONDecodeError
             (lift (text ← response_text response;
                    let json_string :=
                      Str.replace FENCE []
                        (Str.replace FENCE_JSON [] (Str.strip text)) in
                    json_loads json_string))
             (fun _ =>
                raise (HTTPException 500 (py "Failed to parse JSON from Gemini's response. The AI might not have returned a valid JSON object.")));
         lift (new_JSONResponse extracted_data (py "application/json")
                 [(py "Content-Disposition",
                   py "attachment; filename=extracted_data.json")])
     end)
    (fun e => raise (HTTPException 500 (str_exn e))).

(** What the client of [POST /extract-data/] receives: the response the
    handler returns, or FastAPI's answer to the [HTTPException] it raises
    (its status code, and its detail as the message); any other exception
    would be a plain 500. *)
Inductive http_reply :=
| Reply (r : JSONResponse)
| ErrorReply (status : N) (detail : str).

Definition respond (r : result JSONResponse) : http_reply :=
  match r with
  | Return resp => Reply resp
  | Raise (HTTPException status detail) => ErrorReply status detail
  | Raise _ => ErrorReply 500 (py "Internal Server Error")
  end.

Definition post_extract_data (pdf_file : UploadFile) : http_reply * outbound :=
  let '(r, sent) := extract_data_from_pdf pdf_file [] in (respond r, sent).

End Handler.

(** ** Module initialisation: the top-level statements of [main.py] *)

Module Startup.

(** The endpoints of the application: the two of [main.py], and the four
    that [FastAPI()] provides itself (the OpenAPI schema and the
    documentation pages). *)
Inductive endpoint :=
| read_root
| extract_data
| openapi
| swagger_ui_html
| swagger_ui_redirect
| redoc_html.

Record route := { method : str; path : str; target : endpoint }.

(** The state of the process while the module is imported: the
    environment, the module globals assigned so far, and the [FastAPI]
    application with its registered routes once it exists. *)
Record process := {
  environ : gmap str str;
  GEMINI_API_KEY : option (option str);
  genai_api_key : option str;
  model : option str;
  app : option (list route)
}.

Definition boot (env : gmap str str) : process :=
  {| environ := env; GEMINI_API_KEY := None; genai_api_key := None;
     model := None; app := None |}.

(** [load_dotenv()]: the variables of the [.env] file are added to the
    environment; a variable already set keeps its value. *)
Definition load_dotenv (dotenv : gmap str str) : st process unit :=
  modify (fun p =>
    {| environ := environ p ∪ dotenv; GEMINI_API_KEY := GEMINI_API_KEY p;
       genai_api_key := genai_api_key p; model := model p; app := app p |}).

(** [os.getenv(name)] *)
Definition os_getenv (name : str) : st process (option str) :=
  p ← get_state; mret (environ p !! name).

Definition assign_GEMINI_API_KEY (v : option str) : st process unit :=
  modify (fun p =>
    {| environ := environ p; GEMINI_API_KEY := Some v;
       genai_api_key := genai_api_key p; model := model p; app := app p |}).

(** [genai.configure(api_key=...)] *)
Definition genai_configure (api_key : str) : st process unit :=
  modify (fun p =>
    {| environ := environ p; GEMINI_API_KEY := GEMINI_API_KEY p;
       genai_api_key := Some api_key; model := model p; app := app p |}).

(** [model = genai.GenerativeModel(name)] *)
Definition assign_model (name : str) : st process unit :=
  modify (fun p =>
    {| environ := environ p; GEMINI_API_KEY := GEMINI_API_KEY p;
       genai_api_key := genai_api_key p; model := Some name; app := app p |}).

(** The routes a [FastAPI()] instance has from its construction, with the
    default URLs, in the order [FastAPI.setup] adds them.  Each is a
    Starlette [Route] for [GET], to which Starlette adds [HEAD]; a route is
    listed here once per method. *)
Definition fastapi_routes : list route :=
  [ {| method := py "GET"; path := py "/openapi.json"; target := openapi |};
    {| method := py "HEAD"; path := py "/openapi.json"; target := openapi |};
    {| method := py "GET"; path := py "/docs"; target := swagger_ui_html |};
    {| method := py "HEAD"; path := py "/docs"; target := swagger_ui_html |};
    {| method := py "GET"; path := py "/docs/oauth2-redirect";
       target := swagger_ui_redirect |};
    {| method := py "HEAD"; path := py "/docs/oauth2-redirect";
       target := swagger_ui_redirect |};
    {| method := py "GET"; path := py "/redoc"; target := redoc_html |};
    {| method := py "HEAD"; path := py "/redoc"; target := redoc_html |} ].

(** [app = FastAPI()] *)
Definition assign_app : st process unit :=
  modify (fun p =>
    {| environ := environ p; GEMINI_API_KEY := GEMINI_API_KEY p;
       genai_api_key := genai_api_key p; model := model p;
       app := Some fastapi_routes |}).

(** [@app.get(path)] and [@app.post(path)]: the name [app] must be bound. *)
Definition add_route (r : route) : st process unit :=
  p ← get_state;
  match app p with
  | None => raise (Exception_ (py "NameError") (py "name 'app' is not defined"))
  | Some routes =>
      modify (fun p =>
        {| environ := environ p; GEMINI_API_KEY := GEMINI_API_KEY p;
           genai_api_key := genai_api_key p; model := model p;
           app := Some (routes ++ [r]) |})
  end.

(** The module body, statement by statement. *)
Definition main_module (dotenv : gmap str str) : st process unit :=
  load_dotenv dotenv;;
  key ← os_getenv (py "GEMINI_API_KEY");
  assign_GEMINI_API_KEY key;;
  match key with
  | None | Some [] =>
      raise (Exception_ (py "ValueError")
               (py "GEMINI_API_KEY not found in .env file."))
  | Some (c :: rest) =>
      genai_configure (c :: rest);;
      assign_model (py "gemini-2.5-flash");;
      assign_app;;
      add_route {| method := py "GET"; path := py "/"; target := read_root |};;
      add_route {| method := py "POST"; path := py "/extract-data/";
                   target := extract_data |}
  end.


(** The endpoint that answers a request, if the process has an
    application with a matching route. *)
Definition dispatch (p : process) (m pth : str) : option endpoint :=
  routes ← app p;
  target <$> find (fun r => bool_decide (method r = m) && bool_decide (path r = pth))
               routes.

End Startup.

(** ** The collaborators as the Python libraries provide them *)

Module PyLibs.

(** The texts the libraries attach to their errors are not fixed by
    [main.py]; the handler only forwards them.  [Json.loads] never runs out
    of steps (lemma [loads_steps] below), so three outcomes are errors. *)
Record diagnostics := {
  decode_msg : str -> str;
  decode_pos : str -> N;
  recursion_error : exn;
  int_digits_error : str -> exn;
  render_exn : Json.value -> exn
}.

Definition loads (cfg : Json.config) (d : diagnostics) (s : str)
  : result Json.value :=
  match Json.loads cfg s with
  | Json.Parsed v _ => Return v
  | Json.Malformed => Raise (JSONDecodeError (decode_msg d s) s (decode_pos d s))
  | Json.TooDeep => Raise (recursion_error d)
  | Json.OutOfSteps => Raise (recursion_error d)   (* never reached *)
  | Json.IntTooLong => Raise (int_digits_error d s)
  end.

(** What the rendering of [JSONResponse] raises on a value: the two
    refusals of [Json.renderable].  The nesting limit of the encoder (a
    [RecursionError] on a deeply nested value) is not modelled; the
    documents of the scenarios nest once. *)
Definition rendering (d : diagnostics) (v : Json.value) : option exn :=
  if Json.renderable v then None else Some (render_exn d v).

(** A document described by what its reader and its pages yield, and an AI
    service described by what it answers to a prompt. *)
Definition libs (cfg : Json.config) (d : diagnostics)
    (reader : bytes -> result (list (result (option str))))
    (ai : str -> result (result str)) : Collaborators :=
  {| Page := result (option str);
     PdfReader := reader;
     page_extract_text := fun page => page;
     GenerateContentResponse := result str;
     model_generate_content := ai;
     response_text := fun response => response;
     json_loads := loads cfg d;
     render_error := rendering d |}.

End PyLibs.

(** ** Constants and scenarios used in the statements *)

Definition EMPTY_TEXT_DETAIL : str :=
  py "Could not extract text from the PDF file.".

Definition PARSE_FAILURE_DETAIL : str :=
  py "Failed to parse JSON from Gemini's response. The AI might not have returned a valid JSON object.".

Definition download_response (v : Json.value) : JSONResponse :=
  {| status_code := 200; content := v; media_type := py "application/json";
     headers := [(py "Content-Disposition",
                  py "attachment; filename=extracted_data.json")] |}.

(** The catch-all of the handler: whatever is raised inside the [try]
    leaves it as a 500 carrying [str(e)]. *)
Definition caught (e : exn) : result JSONResponse :=
  Raise (HTTPException 500 (str_exn e)).

(** Documents in the examples are written with ['] standing for the double
    quote of JSON. *)
Definition json_text (s : string) : str :=
  map (fun c => if c =? 39 then 34 else c) (py s).

Module Scenario.

(** CPython's defaults: [sys.getrecursionlimit()] and
    [sys.get_int_max_str_digits()]. *)
Definition cpython : Json.config :=
  {| Json.recursion_limit := 1000; Json.int_max_str_digits := 4300 |}.

(** Sample error texts of the libraries. *)
Definition sample : PyLibs.diagnostics :=
  {| PyLibs.decode_msg := fun _ => py "Expecting value";
     PyLibs.decode_pos := fun _ => 0;
     PyLibs.recursion_error :=
       Exception_ (py "RecursionError") (py "maximum recursion depth exceeded");
     PyLibs.int_digits_error := fun _ =>
       Exception_ (py "ValueError")
         (py "Exceeds the limit (4300 digits) for integer string conversion");
     PyLibs.render_exn := fun v =>
       if Json.floats_finite v
       then Exception_ (py "UnicodeEncodeError")
              (py "'utf-8' codec can't encode character '\ud800' in position 10: surrogates not allowed")
       else Exception_ (py "ValueError")
              (py "Out of range float values are not JSON compliant") |}.

(** A document whose pages yield [texts], and a service that answers
    [answer] to every prompt. *)
Definition service (d : PyLibs.diagnostics) (texts : list (option str))
    (answer : result (result str)) : Collaborators :=
  PyLibs.libs cpython d (fun _ => Return (map Return texts)) (fun _ => answer).

Definition upload (data : bytes) : UploadFile :=
  {| upload_read := Return data |}.

(** An image-only scan: one page, no text layer. *)
Definition image_only : list (option str) := [Some []].

(** The listing of the example scenario of the specification, answered
    by a fenced JSON object. *)
Definition listing_text : str := py "価格: 3000万円
所在地: 東京都渋谷区".

Definition listing : list (option str) := [Some listing_text].

Definition fenced_answer : str := json_text "```json
{'Price': '30,000,000 yen', 'Address': null}
```".

Definition fenced_value : Json.value :=
  Json.JDict [(py "Price", Json.JStr (py "30,000,000 yen"));
              (py "Address", Json.JNone)].

Definition fenced_libs : Collaborators :=
  service sample listing (Return (Return fenced_answer)).

(** The listing answered by a refusal in plain words. *)
Definition refusal : str := py "Sorry, I cannot process this.".

Definition refusal_libs : Collaborators :=
  service sample listing (Return (Return refusal)).

(** The listing answered by a JSON document with an unpaired surrogate
    escape in a field value. *)
Definition lone_surrogate_answer : str := json_text "{'Price': '\ud800'}".

Definition lone_surrogate_value : Json.value :=
  Json.JDict [(py "Price", Json.JStr [55296])].

Definition lone_surrogate_libs : Collaborators :=
  service sample listing (Return (Return lone_surrogate_answer)).

(** The listing answered by JSON documents with a number that is not
    finite. *)
Definition nan_answer : str := json_text "{'Price': NaN}".
Definition huge_answer : str := json_text "{'Price': 1e999}".

(** The listing answered by a JSON document with fences inside a field
    value: what the answer denotes, and what the endpoint returns. *)
Definition fence_in_value : str := json_text "{'Address': 'Room ```A```'}".

Definition fence_field : str := py "Room ```A```".

Definition fence_denoted : Json.value :=
  Json.JDict [(py "Address", Json.JStr fence_field)].

Definition fence_returned : Json.value :=
  Json.JDict [(py "Address", Json.JStr (py "Room A"))].

(** A file that the PDF reader refuses. *)
Definition corrupt_error : exn :=
  Exception_ (py "PdfStreamError") (py "Stream has ended unexpectedly").

Definition corrupt_libs : Collaborators :=
  PyLibs.libs cpython sample
    (fun _ => Raise corrupt_error) (fun _ => Return (Return refusal)).

(** A page holding an ideographic space and a line feed. *)
Definition blank_text : str := [12288; 10].

Definition blank_libs : Collaborators :=
  service sample [Some blank_text] (Return (Return fenced_answer)).

End Scenario.

(** ** JSON texts (RFC 8259)

    The grammar of RFC 8259, section by section: what "valid JSON" means
    independently of any parser. *)

Module Rfc8259.

(** [ws = *( %x20 / %x09 / %x0A / %x0D )] *)
Definition ws (s : str) : Prop := forallb Json.is_ws s = true.

(** A structural character with the whitespace allowed around it:
    [begin-array = ws %x5B ws] and the like. *)
Definition structural (c : N) (s : str) : Prop :=
  exists w1 w2, s = w1 ++ c :: w2 /\ ws w1 /\ ws w2.

(** [1*DIGIT] *)
Definition digits (s : str) : Prop :=
  s <> [] /\ forallb Json.isdigit s = true.

(** [int = zero / ( digit1-9 *DIGIT )] *)
Definition int (s : str) : Prop :=
  s = [48]
  \/ exists d ds,
       s = d :: ds /\ (49 <=? d) && (d <=? 57) = true
       /\ forallb Json.isdigit ds = true.

(** [frac = decimal-point 1*DIGIT] *)
Definition frac (s : str) : Prop := exists ds, s = 46 :: ds /\ digits ds.

(** [exp = e [ minus / plus ] 1*DIGIT] *)
Definition exp (s : str) : Prop :=
  exists e sign ds,
    s = e :: sign ++ ds /\ (e = 101 \/ e = 69)
    /\ (sign = [] \/ sign = [45] \/ sign = [43]) /\ digits ds.

Definition optional (P : str -> Prop) (s : str) : Prop := s = [] \/ P s.

(** [number = [ minus ] int [ frac ] [ exp ]] *)
Definition number (s : str) : Prop :=
  exists minus i f e,
    s = minus ++ i ++ f ++ e
    /\ optional (eq [45]) minus /\ int i /\ optional frac f /\ optional exp e.

(** [unescaped = %x20-21 / %x23-5B / %x5D-10FFFF] *)
Definition unescaped (c : N) : bool :=
  (32 <=? c) && negb (c =? 34) && negb (c =? 92) && (c <=? 1114111).

Definition hexdig (c : N) : bool :=
  match Json.hexval c with
  | Some _ => true
  | None => false
  end.

(** [*char], with [char = unescaped / escape ( ... )] *)
Inductive chars : str -> Prop :=
| chars_nil : chars []
| chars_unescaped c rest :
    unescaped c = true -> chars rest -> chars (c :: rest)
| chars_escape e rest :
    In e [34; 92; 47; 98; 102; 110; 114; 116] ->
    chars rest -> chars (92 :: e :: rest)
| chars_u h1 h2 h3 h4 rest :
    forallb hexdig [h1; h2; h3; h4] = true ->
    chars rest -> chars (92 :: 117 :: h1 :: h2 :: h3 :: h4 :: rest).

(** [string = quotation-mark *char quotation-mark] *)
Definition string_ (s : str) : Prop :=
  exists body, s = 34 :: body ++ [34] /\ chars body.

(** [value = false / null / true / object / array / number / string],
    with [array = begin-array [ value *( value-separator value ) ]
    end-array] and [object = begin-object [ member *( value-separator
    member ) ] end-object], [member = string name-separator value]. *)
Inductive value : str -> Prop :=
| value_false : value [102; 97; 108; 115; 101]
| value_null : value [110; 117; 108; 108]
| value_true : value [116; 114; 117; 101]
| value_number s : number s -> value s
| value_string s : string_ s -> value s
| value_empty_array b e :
    structural 91 b -> structural 93 e -> value (b ++ e)
| value_array b items e :
    structural 91 b -> elements items -> structural 93 e ->
    value (b ++ items ++ e)
| value_empty_object b e :
    structural 123 b -> structural 125 e -> value (b ++ e)
| value_object b ms e :
    structural 123 b -> members ms -> structural 125 e ->
    value (b ++ ms ++ e)
with elements : str -> Prop :=
| elements_one v : value v -> elements v
| elements_more v sep rest :
    value v -> structural 44 sep -> elements rest ->
    elements (v ++ sep ++ rest)
with members : str -> Prop :=
| members_one k sep v :
    string_ k -> structural 58 sep -> value v -> members (k ++ sep ++ v)
| members_more k sep v sep' rest :
    string_ k -> structural 58 sep -> value v ->
    structural 44 sep' -> members rest ->
    members (k ++ sep ++ v ++ sep' ++ rest).

(** [JSON-text = ws value ws] *)
Definition json_text (s : str) : Prop :=
  exists w1 v w2, s = w1 ++ v ++ w2 /\ ws w1 /\ value v /\ ws w2.


End Rfc8259.


(** The claim that whatever [json.loads] accepts comes back as a 200: for
    every collaborator, upload and AI answer, if the cleaned answer parses
    to [v] then the reply is the download response carrying [v]. *)
Definition parsed_value_always_returned : Prop :=
  forall (L : Collaborators) (pdf_file : UploadFile) (data : bytes)
         (c : N) (rest : str) (response : GenerateContentResponse)
         (text : str) (v : Json.value),
    upload_read pdf_file = Return data ->
    extract_text_from_pdf data = Return (c :: rest) ->
    model_generate_content (full_prompt_of (c :: rest)) = Return response ->
    response_text response = Return text ->
    json_loads (clean_response text) = Return v ->
    (post_extract_data pdf_file).1
    = Reply {| status_code := 200; content := v;
               media_type := py "application/json";
               headers := [(py "Content-Disposition",
                            py "attachment; filename=extracted_data.json")] |}.

(** The failures of a request other than the empty-text check and the
    decoding of the AI answer: [e] is the exception raised by the first
    step that fails. *)
Inductive unclassified_failure `{Collaborators} (pdf_file : UploadFile)
  : exn -> Prop :=
| fail_read e :
    upload_read pdf_file = Raise e ->
    unclassified_failure pdf_file e
| fail_reader data e :
    upload_read pdf_file = Return data ->
    PdfReader data = Raise e ->
    unclassified_failure pdf_file e
| fail_page data done texts page rest e :
    upload_read pdf_file = Return data ->
    PdfReader data = Return (done ++ page :: rest) ->
    Forall2 (fun p t => page_extract_text p = Return t) done texts ->
    page_extract_text page = Raise e ->
    unclassified_failure pdf_file e
| fail_model data c rest e :
    upload_read pdf_file = Return data ->
    extract_text_from_pdf data = Return (c :: rest) ->
    model_generate_content (full_prompt_of (c :: rest)) = Raise e ->
    unclassified_failure pdf_file e
| fail_text data c rest response e :
    upload_read pdf_file = Return data ->
    extract_text_from_pdf data = Return (c :: rest) ->
    model_generate_content (full_prompt_of (c :: rest)) = Return response ->
    response_text response = Raise e ->
    is_JSONDecodeError e = false ->
    unclassified_failure pdf_file e
| fail_loads data c rest response text e :
    upload_read pdf_file = Return data ->
    extract_text_from_pdf data = Return (c :: rest) ->
    model_generate_content (full_prompt_of (c :: rest)) = Return response ->
    response_text response = Return text ->
    json_loads (clean_response text) = Raise e ->
    is_JSONDecodeError e = false ->
    unclassified_failure pdf_file e
| fail_render data c rest response text v e :
    upload_read pdf_file = Return data ->
    extract_text_from_pdf data = Return (c :: rest) ->
    model_generate_content (full_prompt_of (c :: rest)) = Return response ->
    response_text response = Return text ->
    json_loads (clean_response text) = Return v ->
    render_error v = Some e ->
    unclassified_failure pdf_file e.

(** ** The landing page ([main.py], [read_root]) *)

(** [HTMLResponse(content=..., status_code=...)] *)
Record HTMLResponse := {
  html_content : str;
  html_status_code : N
}.

(** The page is written with ['] standing for the double quote of HTML. *)
Definition read_root : HTMLResponse :=
  let html_content := json_text "
    <!DOCTYPE html>
    <html>
    <head>
        <title>PDF Data Extractor</title>
        <style>
            body {
                font-family: Arial, sans-serif;
                margin: 40px;
                background-color: #f4f4f4;
                color: #333;
            }
            .container {
                max-width: 600px;
                margin: auto;
                background: #fff;
                padding: 20px;
                border-radius: 8px;
                box-shadow: 0 0 10px rgba(0, 0, 0, 0.1);
            }
            h1 {
                color: #5C677D;
            }
            p {
                line-height: 1.6;
            }
            .link-btn {
                display: inline-block;
                padding: 10px 15px;
                background-color: #5C677D;
                color: white;
                text-decoration: none;
                border-radius: 5px;
                margin-top: 10px;
            }
            .link-btn:hover {
                background-color: #4A5568;
            }
        </style>
    </head>
    <body>
        <div class='container'>
            <h1>Welcome to the Real Estate PDF Extractor!</h1>
            <p>This API allows you to extract key real estate data from Japanese PDF documents using the Gemini AI model.</p>
            <p>You can use the interactive API documentation to test the endpoints and understand the functionality.</p>
            <a href='/docs' class='link-btn'>Go to API Documentation</a>
        </div>
    </body>
    </html>
    " in
  {| html_content := html_content; html_status_code := 200 |}.

(** ** Further scenarios *)

Module Scenario2.

(** A reader that tells three files apart by their length: a first part, a
    second part, and the two merged. *)
Definition part1 : list (result (option str)) := [Return (Some (py "価格: 3000万円")); Return None].
Definition part2 : list (result (option str)) := [Return (Some (py "所在地: 東京都渋谷区"))].

Definition parts_libs : Collaborators :=
  PyLibs.libs Scenario.cpython Scenario.sample
    (fun data =>
       match data with
       | [] => Return part1
       | [_] => Return part2
       | _ => Return (part1 ++ part2)
       end)
    (fun _ => Return (Return Scenario.refusal)).

(** A document with a page of text, a page for which the extraction gives
    [None], a page with the empty string, and another page of text. *)
Definition mixed_pages : list (option str) :=
  [Some (py "価格: 3000万円"); None; Some []; Some (py "所在地: 東京都渋谷区")].

Definition mixed_libs : Collaborators :=
  Scenario.service Scenario.sample mixed_pages (Return (Return Scenario.refusal)).

(** The listing answered by the bare word [NaN]. *)
Definition bare_nan : str := py "NaN".

(** A service whose request fails with an error that carries the text of
    the parse-failure reply. *)
Definition echoing_error : exn :=
  Exception_ (py "RuntimeError")
    (py "500: Failed to parse JSON from Gemini's response. The AI might not have returned a valid JSON object.").

Definition echoing_libs : Collaborators :=
  Scenario.service Scenario.sample Scenario.listing (Raise echoing_error).

(** A response whose [text] property raises a decoding error. *)
Definition text_error : exn :=
  JSONDecodeError (py "Expecting value") [] 0.

Definition text_error_libs : Collaborators :=
  Scenario.service Scenario.sample Scenario.listing (Return (Raise text_error)).

(** Answers wrapped in fences and whitespace. *)
Definition body : str := json_text "
{'Price': null}
".

(** The body of [Scenario.fenced_answer]. *)
Definition fenced_body : str := json_text "
{'Price': '30,000,000 yen', 'Address': null}
".

End Scenario2.

(** * Properties *)

(** Literals are evaluated by [vm_compute] only, never by unification. *)
#[global] Opaque py.

(** ** Strings *)

Module StrFacts.
Import Str.

Lemma startswith_spec (p s : str) :
  startswith p s = true <-> exists t, s = p ++ t.
Proof.
  revert s. induction p as [|a p IH]; intros s; simpl.
  - split; [intros _; now exists s | reflexivity].
  - destruct s as [|c s].
    + split; [discriminate | intros [t Ht]; discriminate].
    + rewrite andb_true_iff, IH, N.eqb_eq. split.
      * intros [-> [t ->]]. now exists t.
      * intros [t Ht]. injection Ht as -> ->. split; [reflexivity | now exists t].
Qed.

Lemma contains_spec (sub s : str) :
  contains sub s = true <-> occurs sub s.
Proof.
  unfold occurs. induction s as [|c s IH].
  - simpl. rewrite orb_false_r, startswith_spec. split.
    + intros [t Ht]. exists [], t. exact Ht.
    + intros [pre [post Hs]]. destruct pre; [now exists post | discriminate].
  - change (contains sub (c :: s))
      with (startswith sub (c :: s) || contains sub s).
    rewrite orb_true_iff, startswith_spec, IH. split.
    + intros [[t Ht] | [pre [post Hs]]].
      * exists [], t. exact Ht.
      * exists (c :: pre), post. simpl. now rewrite Hs.
    + intros [pre [post Hs]]. destruct pre as [|a pre].
      * left. now exists post.
      * right. injection Hs as -> ->. now exists pre, post.
Qed.

Lemma not_contains_spec (sub s : str) :
  contains sub s = false <-> ~ occurs sub s.
Proof.
  rewrite <- contains_spec. destruct (contains sub s); split; congruence.
Qed.

Lemma startswith_cons (a : N) (p : str) (c : N) (s : str) :
  startswith (a :: p) (c :: s) = (a =? c) && startswith p s.
Proof. reflexivity. Qed.

Lemma occurs_prefix (p q s : str) :
  startswith p q = true -> occurs q s -> occurs p s.
Proof.
  intros Hp [pre [post ->]]. apply startswith_spec in Hp as [t ->].
  exists pre, (t ++ post). now rewrite <- app_assoc.
Qed.

Lemma replace_from_miss (old new : str) (c : N) (s : str) :
  startswith old (c :: s) = false ->
  replace_from old new 0 (c :: s) = c :: replace_from old new 0 s.
Proof. intros Hm. simpl replace_from. now rewrite Hm. Qed.

Lemma replace_from_skip (old new : str) (k : nat) (s : str) :
  replace_from old new k s = replace_from old new 0 (drop k s).
Proof.
  revert k. induction s as [|c s IH]; intros [|k]; try reflexivity.
  simpl. apply IH.
Qed.

Lemma replace_from_hit (old new : str) (c : N) (s : str) :
  startswith old (c :: s) = true ->
  replace_from old new 0 (c :: s)
  = new ++ replace_from old new 0 (drop (length old - 1) s).
Proof.
  intros Hh. simpl replace_from. rewrite Hh. now rewrite replace_from_skip.
Qed.

(** Where [old] does not occur, [replace] changes nothing. *)
Lemma replace_absent (old new s : str) :
  old <> [] -> contains old s = false -> replace old new s = s.
Proof.
  intros Hne. destruct old as [|a old]; [congruence | clear Hne].
  unfold replace. induction s as [|c s IH]; [reflexivity |].
  change (contains (a :: old) (c :: s))
    with (startswith (a :: old) (c :: s) || contains (a :: old) s).
  intros [Hm Hc]%orb_false_iff.
  rewrite replace_from_miss by exact Hm. now rewrite IH.
Qed.

End StrFacts.

(** ** Fence stripping *)

Module FenceFacts.
Import Str StrFacts.

Lemma FENCE_eq : FENCE = [96; 96; 96].
Proof. vm_compute. reflexivity. Qed.

Lemma FENCE_JSON_eq : FENCE_JSON = [96; 96; 96; 106; 115; 111; 110].
Proof. vm_compute. reflexivity. Qed.

Lemma fence_starts (s : str) :
  startswith FENCE s = true <-> exists t, s = 96 :: 96 :: 96 :: t.
Proof. rewrite FENCE_eq. apply startswith_spec. Qed.

Lemma fence_hit (t : str) :
  replace FENCE [] (96 :: 96 :: 96 :: t) = replace FENCE [] t.
Proof. rewrite FENCE_eq. reflexivity. Qed.

Lemma fence_miss (c : N) (s : str) :
  startswith FENCE (c :: s) = false ->
  replace FENCE [] (c :: s) = c :: replace FENCE [] s.
Proof. rewrite FENCE_eq. apply replace_from_miss. Qed.

(** Settles [startswith FENCE (c1 :: c2 :: ...) = false] from the
    disequalities in the context. *)
Ltac fence_head :=
  rewrite ?FENCE_eq, ?startswith_cons;
  repeat match goal with
         | Hne : ?c <> 96 |- context [96 =? ?c] =>
             rewrite (proj2 (N.eqb_neq 96 c)) by congruence
         end;
  reflexivity.

Lemma fence_miss_head (c : N) (s : str) :
  c <> 96 -> startswith FENCE (c :: s) = false.
Proof. intros Hc. fence_head. Qed.

(** After a character that is not the start of a fence, the characters
    kept by the removal do not start one either. *)
Lemma fence_not_created (c : N) (s : str) :
  startswith FENCE (c :: s) = false ->
  startswith FENCE (c :: replace FENCE [] s) = false.
Proof.
  intros Hm.
  destruct (N.eq_dec c 96) as [-> | Hc]; [| now apply fence_miss_head].
  destruct s as [|c2 s]; [reflexivity |].
  destruct (N.eq_dec c2 96) as [-> | Hc2].
  - destruct s as [|c3 s]; [reflexivity |].
    destruct (N.eq_dec c3 96) as [-> | Hc3]; [discriminate Hm |].
    assert (H3 : startswith FENCE (c3 :: s) = false) by fence_head.
    assert (H2 : startswith FENCE (96 :: c3 :: s) = false) by fence_head.
    rewrite (fence_miss _ _ H2), (fence_miss _ _ H3). fence_head.
  - assert (H2 : startswith FENCE (c2 :: s) = false) by fence_head.
    rewrite (fence_miss _ _ H2). fence_head.
Qed.

Lemma replace_fence_clean_upto (n : nat) (s : str) :
  (length s <= n)%nat -> contains FENCE (replace FENCE [] s) = false.
Proof.
  revert s. induction n as [|n IH]; intros s Hn.
  - destruct s; [reflexivity | simpl in Hn; lia].
  - destruct s as [|c s]; [reflexivity |].
    destruct (startswith FENCE (c :: s)) eqn:Hs.
    + apply fence_starts in Hs as [t Ht]. rewrite Ht, fence_hit.
      apply IH. injection Ht as -> ->. simpl in Hn. lia.
    + rewrite (fence_miss _ _ Hs).
      change (contains FENCE (c :: replace FENCE [] s))
        with (startswith FENCE (c :: replace FENCE [] s)
              || contains FENCE (replace FENCE [] s)).
      rewrite (fence_not_created _ _ Hs). simpl.
      apply IH. simpl in Hn. lia.
Qed.

(** Removing every ["```"] leaves none behind. *)
Lemma replace_fence_clean (s : str) :
  contains FENCE (replace FENCE [] s) = false.
Proof. apply (replace_fence_clean_upto (length s)). lia. Qed.

Lemma no_fence_no_fence_json (s : str) :
  contains FENCE s = false -> contains FENCE_JSON s = false.
Proof.
  rewrite !not_contains_spec. intros Hn Ho. apply Hn.
  now apply (occurs_prefix FENCE FENCE_JSON).
Qed.

Lemma strip_fences_fixed (s : str) :
  contains FENCE s = false -> strip_fences s = s.
Proof.
  intros Hf. unfold strip_fences.
  rewrite (replace_absent FENCE_JSON) by
    (try apply no_fence_no_fence_json; try exact Hf; rewrite FENCE_JSON_eq; discriminate).
  apply replace_absent; [rewrite FENCE_eq; discriminate | exact Hf].
Qed.

Lemma strip_fences_clean (s : str) :
  contains FENCE (strip_fences s) = false.
Proof. apply replace_fence_clean. Qed.

End FenceFacts.

(** C4. Fence stripping is a total function that is idempotent, whose
    result contains neither ["```json"] nor ["```"], and that leaves
    unchanged every string containing neither, so that such a string is
    handed to the parser as it is. *)
Theorem strip_fences_idempotent_total (s : str) :
  strip_fences (strip_fences s) = strip_fences s
  /\ ~ Str.occurs FENCE_JSON (strip_fences s)
  /\ ~ Str.occurs FENCE (strip_fences s)
  /\ (~ Str.occurs FENCE_JSON s -> ~ Str.occurs FENCE s -> strip_fences s = s).
Proof.
  pose proof (FenceFacts.strip_fences_clean s) as Hc.
  split; [| split; [| split]].
  - now apply FenceFacts.strip_fences_fixed.
  - apply StrFacts.not_contains_spec. now apply FenceFacts.no_fence_no_fence_json.
  - now apply StrFacts.not_contains_spec.
  - intros _ Hf. apply FenceFacts.strip_fences_fixed.
    now apply StrFacts.not_contains_spec.
Qed.

Lemma strip_fences_idempotent_total_witness :
  strip_fences (py "{}") = py "{}".
Proof.
  destruct (strip_fences_idempotent_total (py "{}")) as (_ & _ & _ & Hfixed).
  apply Hfixed; apply StrFacts.not_contains_spec; vm_compute; reflexivity.
Defined.

Module FenceExamples.

Example fenced_block :
  clean_response (py "
```json
{}
```  ") = [10; 123; 125; 10].
Proof. vm_compute. reflexivity. Qed.

(** Removing ["```json"] may bring backticks together; the second
    replacement removes the fence they form. *)
Example fence_formed_by_first_removal :
  strip_fences (py "````json``x") = py "x".
Proof. vm_compute. reflexivity. Qed.

Example strip_ideographic_space :
  Str.strip (py "　a b　 ") = py "a b".
Proof. vm_compute. reflexivity. Qed.

Example replace_empty_old :
  Str.replace [] (py "-") (py "abc") = py "-a-b-c-".
Proof. vm_compute. reflexivity. Qed.

End FenceExamples.

(** ** The JSON decoder *)

Module JsonFacts.
Import Json.

Lemma skip_ws_length (s : str) : (length (skip_ws s) <= length s)%nat.
Proof.
  induction s as [|c s IH]; simpl; [lia |].
  destruct (is_ws c); simpl; lia.
Qed.

Lemma span_digits_length (s : str) :
  (length (span_digits s).2 <= length s)%nat.
Proof.
  induction s as [|c s IH]; simpl; [lia |].
  destruct (isdigit c); [| simpl; lia].
  destruct (span_digits s) as [ds r]. simpl in *. lia.
Qed.

Lemma scanstring_length_upto (n : nat) :
  forall s chunks text r,
    (length s <= n)%nat ->
    scanstring s chunks = Some (text, r) -> (length r < length s)%nat.
Proof.
  induction n as [|n IH]; intros s chunks text r Hn Hscan.
  - destruct s; [discriminate Hscan | simpl in Hn; lia].
  - destruct s as [|c s]; [discriminate Hscan |].
    simpl in Hscan. cbn [length] in Hn.
    repeat case_match; simplify_eq; cbn [length] in *;
      try lia;
      match goal with
      | H : scanstring ?t _ = Some _ |- _ =>
          apply IH in H; cbn [length] in *; lia
      end.
Qed.

Lemma scanstring_length (s chunks text r : str) :
  scanstring s chunks = Some (text, r) -> (length r < length s)%nat.
Proof. now apply (scanstring_length_upto (length s)). Qed.

Lemma split_sign_length (s : str) :
  (length (split_sign s).2 <= length s)%nat.
Proof. destruct s as [|c s]; simpl; [lia |]. destruct (c =? 45); simpl; lia. Qed.

Lemma int_part_length (s ints r : str) :
  int_part s = Some (ints, r) -> (length r < length s)%nat.
Proof.
  destruct s as [|d s]; [discriminate |]. unfold int_part.
  pose proof (span_digits_length s) as Hspan.
  destruct (span_digits s) as [ds r']. simpl in Hspan.
  repeat case_match; intros; simplify_eq; simpl; lia.
Qed.

Lemma frac_part_length (s : str) :
  (length (frac_part s).2 <= length s)%nat.
Proof.
  destruct s as [|c s]; simpl; [lia |].
  pose proof (span_digits_length s) as Hspan.
  destruct (span_digits s) as [ds r']. simpl in Hspan.
  repeat case_match; simpl; lia.
Qed.

Lemma exp_part_length (s : str) :
  (length (exp_part s).2 <= length s)%nat.
Proof.
  unfold exp_part.
  repeat case_match; simplify_eq; cbn [length snd] in *; try lia;
    match goal with
    | H : span_digits ?t = (_, ?r) |- _ =>
        pose proof (span_digits_length t) as Hl; rewrite H in Hl;
        cbn [length snd] in Hl; lia
    end.
Qed.

Lemma match_number_length (cfg : config) (s : str) (v : value) (r : str) :
  match_number cfg s = Some (Parsed v r) -> (length r < length s)%nat.
Proof.
  unfold match_number.
  pose proof (split_sign_length s) as Hsign.
  destruct (split_sign s) as [negative s1]. simpl in Hsign.
  destruct (int_part s1) as [[ints s2] |] eqn:Hint; [| discriminate].
  apply int_part_length in Hint.
  pose proof (frac_part_length s2) as Hfrac.
  destruct (frac_part s2) as [frac s3]. simpl in Hfrac.
  pose proof (exp_part_length s3) as Hexp.
  destruct (exp_part s3) as [e s4]. simpl in Hexp.
  repeat case_match; intros; simplify_eq; lia.
Qed.

Lemma match_number_steps (cfg : config) (s : str) :
  match_number cfg s <> Some OutOfSteps.
Proof.
  unfold match_number. repeat case_match; discriminate.
Qed.

(** Collects what the hypotheses say about lengths; the three arguments
    are the facts on shorter runs of the parser. *)
Ltac lengths IHs IHa IHo :=
  repeat match goal with
    | H : skip_ws ?t = _ |- _ =>
        let Hl := fresh "Hl" in
        pose proof (skip_ws_length t) as Hl; rewrite H in Hl; clear H
    | H : scanstring _ _ = Some _ |- _ => apply scanstring_length in H
    | H : match_number _ _ = Some (Parsed _ _) |- _ =>
        apply match_number_length in H
    | H : scan_once _ _ _ _ = Parsed _ _ |- _ => apply IHs in H
    | H : array_items _ _ _ _ _ = Parsed _ _ |- _ => apply IHa in H
    | H : object_items _ _ _ _ _ = Parsed _ _ |- _ => apply IHo in H
    end;
  repeat match goal with
    | H : context [length (skip_ws ?t)] |- _ =>
        lazymatch goal with
        | _ : (length (skip_ws t) <= length t)%nat |- _ => fail
        | _ => pose proof (skip_ws_length t)
        end
    | |- context [length (skip_ws ?t)] =>
        lazymatch goal with
        | _ : (length (skip_ws t) <= length t)%nat |- _ => fail
        | _ => pose proof (skip_ws_length t)
        end
    end;
  cbn [length] in *; rewrite ?length_drop; cbn [length]; try lia.

(** Every value read consumes at least one character. *)
Lemma scan_consuming (steps : nat) :
  (forall cfg depth s v r,
      scan_once steps cfg depth s = Parsed v r -> (length r < length s)%nat)
  /\ (forall cfg depth s values v r,
      array_items steps cfg depth s values = Parsed v r ->
      (length r < length s)%nat)
  /\ (forall cfg depth s pairs v r,
      object_items steps cfg depth s pairs = Parsed v r ->
      (length r < length s)%nat).
Proof.
  induction steps as [|n (IHs & IHa & IHo)]; [repeat split; discriminate |].
  repeat split.
  - intros cfg depth s v r Hscan. cbn [scan_once] in Hscan.
    repeat case_match; simplify_eq; lengths IHs IHa IHo.
  - intros cfg depth s values v r Hscan. cbn [array_items] in Hscan.
    repeat case_match; simplify_eq; lengths IHs IHa IHo.
  - intros cfg depth s pairs v r Hscan. cbn [object_items] in Hscan.
    repeat case_match; simplify_eq; lengths IHs IHa IHo.
Qed.

(** The steps [loads] grants are never used up. *)
Lemma steps_sufficient (steps : nat) :
  (forall cfg depth s,
      (2 * length s + 1 <= steps)%nat ->
      scan_once steps cfg depth s <> OutOfSteps)
  /\ (forall cfg depth s values,
      (2 * length s + 2 <= steps)%nat ->
      array_items steps cfg depth s values <> OutOfSteps)
  /\ (forall cfg depth s pairs,
      (2 * length s + 2 <= steps)%nat ->
      object_items steps cfg depth s pairs <> OutOfSteps).

Proof.
  induction steps as [|n (IHs & IHa & IHo)];
    [repeat split; intros; simpl in *; lia |].
  destruct (scan_consuming n) as (Cs & Ca & Co).
  assert (Hfinish : forall cfg depth t,
             (2 * length t + 1 <= n)%nat ->
             scan_once n cfg depth t = OutOfSteps -> False)
    by (intros cfg depth t Ht Hout; exact (IHs cfg depth t Ht Hout)).
  repeat split; intros cfg depth s;
    [ intros Hn; cbn [scan_once]
    | intros values Hn; cbn [array_items]
    | intros pairs Hn; cbn [object_items] ];
    repeat case_match; simplify_eq; try discriminate;
    try match goal with
        | H : match_number ?c ?t = Some ?o |- ?o <> OutOfSteps =>
            intros ->; exact (match_number_steps c t H)
        | H : scan_once n ?c ?d ?t = OutOfSteps |- _ =>
            exfalso; apply (Hfinish c d t); [lengths Cs Ca Co | exact H]
        | |- object_items _ _ _ _ _ <> _ => apply IHo; lengths Cs Ca Co
        | |- array_items _ _ _ _ _ <> _ => apply IHa; lengths Cs Ca Co
        end.
Qed.

(** [loads] always ends with a value or one of Python's errors. *)
Lemma loads_steps (cfg : config) (s : str) : loads cfg s <> OutOfSteps.
Proof.
  unfold loads. destruct (Str.startswith [65279] s); [discriminate |].
  pose proof (skip_ws_length s) as Hws.
  destruct (steps_sufficient (2 * length s + 1)) as (Hs & _ & _).
  specialize (Hs cfg (recursion_limit cfg) (skip_ws s)).
  destruct (scan_once _ cfg _ (skip_ws s)) eqn:Hscan;
    repeat case_match; try discriminate.
  intros _. apply Hs; [lia | reflexivity].
Qed.
End JsonFacts.

Module JsonExamples.
Import Json Scenario.

Example scalars_and_nesting :
  loads cpython (json_text " {'a': [1, -0, true, null, 'x\né'], 'b': {} } ")
  = Parsed (JDict [(py "a", JList [JInt 1; JInt 0; JBool true; JNone;
                                    JStr [120; 10; 233]]);
                   (py "b", JDict [])]) [].
Proof. vm_compute. reflexivity. Qed.

(** A repeated key keeps its first position and its last value. *)
Example repeated_key :
  loads cpython (json_text "{'a': 1, 'b': 2, 'a': 3}")
  = Parsed (JDict [(py "a", JInt 3); (py "b", JInt 2)]) [].
Proof. vm_compute. reflexivity. Qed.

Example surrogate_pair_joined :
  loads cpython (json_text "'😀'") = Parsed (JStr [128512]) [].
Proof. vm_compute. reflexivity. Qed.

Example floats :
  loads cpython (py "[2.5, 1e999, -1e999, NaN, -Infinity]")
  = Parsed (JList [JFloat (FDec false 25 (-1)); JFloat (FInf false);
                   JFloat (FInf true); JFloat FNaN; JFloat (FInf true)]) [].
Proof. vm_compute. reflexivity. Qed.

Example largest_float_is_finite :
  loads cpython (py "1.7976931348623157e308")
  = Parsed (JFloat (FDec false 17976931348623157 292)) [].
Proof. vm_compute. reflexivity. Qed.

Example trailing_comma : loads cpython (py "[1,]") = Malformed.
Proof. vm_compute. reflexivity. Qed.

Example leading_zero : loads cpython (py "01") = Malformed.
Proof. vm_compute. reflexivity. Qed.

Example plain_words : loads cpython refusal = Malformed.
Proof. vm_compute. reflexivity. Qed.

Example nesting_limit :
  loads {| recursion_limit := 2; int_max_str_digits := 4300 |} (py "[[[]]]")
  = TooDeep.
Proof. vm_compute. reflexivity. Qed.

Example int_digits_limit :
  loads {| recursion_limit := 2; int_max_str_digits := 3 |} (py "[1234]")
  = IntTooLong.
Proof. vm_compute. reflexivity. Qed.

(** Answers with a number that is not finite parse, and are refused by
    the rendering of the response: the reply is a 500. *)
Example nan_reply :
  (@post_extract_data (service sample listing (Return (Return nan_answer)))
     (upload [])).1
  = ErrorReply 500 (py "Out of range float values are not JSON compliant").
Proof. vm_compute. reflexivity. Qed.

Example huge_reply :
  (@post_extract_data (service sample listing (Return (Return huge_answer)))
     (upload [])).1
  = ErrorReply 500 (py "Out of range float values are not JSON compliant").
Proof. vm_compute. reflexivity. Qed.

End JsonExamples.

(** ** The text extractor *)

Section ExtractorFacts.

Context `{Collaborators}.

Lemma or_empty_Some (s : str) : or_empty (Some s) = s.
Proof. now destruct s. Qed.

Lemma pages_loop_concat (pages : list Page) (texts : list (option str)) :
  Forall2 (fun page t => page_extract_text page = Return t) pages texts ->
  forall text,
    pages_loop text pages = Return (text ++ concat (map or_empty texts)).
Proof.
  induction 1 as [|page t pages texts Hpage _ IH]; intros text; simpl.
  - now rewrite app_nil_r.
  - rewrite Hpage. simpl. rewrite IH. now rewrite <- app_assoc.
Qed.

Lemma concat_nonempty (parts : list str) :
  Exists (fun part => part <> []) parts -> concat parts <> [].
Proof.
  induction 1 as [part parts Hne | part parts _ IH]; simpl.
  - destruct part; [congruence | discriminate].
  - intros [_ Hnil]%app_eq_nil. now apply IH.
Qed.

(** The first page whose extraction raises ends the loop with that
    exception. *)
Lemma pages_loop_raise (done : list Page) (texts : list (option str))
    (page : Page) (rest : list Page) (e : exn) :
  Forall2 (fun page t => page_extract_text page = Return t) done texts ->
  page_extract_text page = Raise e ->
  forall text, pages_loop text (done ++ page :: rest) = Raise e.
Proof.
  intros Hdone Hpage. induction Hdone as [|p t done texts Hp _ IH]; intros text; simpl.
  - now rewrite Hpage.
  - rewrite Hp. simpl. apply IH.
Qed.

End ExtractorFacts.

(** C5. For a document that its reader opens and whose pages all yield their
    text (or none), the extractor returns the concatenation of the page
    texts in page order, where a page that yields [None] contributes the
    empty string and every other page exactly the string it yields; with at
    least one page that has text, the result is not empty. *)
Theorem extract_text_concatenates_pages `{Collaborators}
    (file_stream : bytes) (pages : list Page) (texts : list (option str)) :
  PdfReader file_stream = Return pages ->
  Forall2 (fun page t => page_extract_text page = Return t) pages texts ->
  extract_text_from_pdf file_stream = Return (concat (map (default []) texts))
  /\ (Exists (fun t => exists c rest, t = Some (c :: rest)) texts ->
      concat (map (default []) texts) <> []).
Proof.
  intros Hreader Hpages.
  assert (Hsame : map or_empty texts = map (default []) texts).
  { apply map_ext. intros [s |]; [apply or_empty_Some | reflexivity]. }
  split.
  - unfold extract_text_from_pdf. rewrite Hreader. simpl.
    rewrite (pages_loop_concat pages texts Hpages). simpl. now rewrite Hsame.
  - intros Hsome. apply concat_nonempty. clear Hreader Hpages Hsame.
    induction Hsome as [t texts' [c [rest ->]] | t texts' _ IH]; simpl.
    + now apply Exists_cons_hd.
    + apply Exists_cons_tl. exact IH.
Qed.

Lemma extract_text_concatenates_pages_witness :
  @extract_text_from_pdf Scenario2.mixed_libs []
  = Return (py "価格: 3000万円所在地: 東京都渋谷区")
  /\ concat (map (default []) Scenario2.mixed_pages) <> [].
Proof.
  destruct (@extract_text_concatenates_pages Scenario2.mixed_libs []
              (map Return Scenario2.mixed_pages) Scenario2.mixed_pages)
    as [Htext Hnonempty].
  - reflexivity.
  - repeat constructor.
  - split.
    + rewrite Htext. vm_compute. reflexivity.
    + apply Hnonempty. apply Exists_cons_hd. vm_compute. eauto.
Defined.

(** ** The handler *)

Section HandlerFacts.

Context `{Collaborators}.

(** The handler, path by path. *)
Lemma extract_data_from_pdf_paths (pdf_file : UploadFile) (sent : outbound) :
  extract_data_from_pdf pdf_file sent =
  match upload_read pdf_file with
  | Raise e => (caught e, sent)
  | Return content =>
      match extract_text_from_pdf content with
      | Raise e => (caught e, sent)
      | Return [] => (caught (HTTPException 400 EMPTY_TEXT_DETAIL), sent)
      | Return (c :: rest) =>
          (match model_generate_content (full_prompt_of (c :: rest)) with
           | Raise e => caught e
           | Return response =>
               match response_text response with
               | Raise e =>
                   if is_JSONDecodeError e
                   then caught (HTTPException 500 PARSE_FAILURE_DETAIL)
                   else caught e
               | Return text =>
                   match json_loads (clean_response text) with
                   | Raise e =>
                       if is_JSONDecodeError e
                       then caught (HTTPException 500 PARSE_FAILURE_DETAIL)
                       else caught e
                   | Return v =>
                       match render_error v with
                       | Some e => caught e
                       | None => Return (download_response v)
                       end
                   end
               end
           end, sent ++ [full_prompt_of (c :: rest)])
      end
  end.
Proof.
  unfold extract_data_from_pdf, try_except, try_except_cls, generate_content,
    new_JSONResponse, lift, raise, caught, clean_response, strip_fences,
    EMPTY_TEXT_DETAIL, PARSE_FAILURE_DETAIL, download_response.
  unfold mbind, st_bind, result_bind.
  destruct (upload_read pdf_file) as [content | e]; [| reflexivity].
  destruct (extract_text_from_pdf content) as [[|c rest] | e]; try reflexivity.
  destruct (model_generate_content _) as [response | e]; [| reflexivity].
  destruct (response_text response) as [text | e].
  - destruct (json_loads _) as [v | e].
    + now destruct (render_error v).
    + now destruct (is_JSONDecodeError e).
  - now destruct (is_JSONDecodeError e).
Qed.

End HandlerFacts.

Section Replies.

Context `{Collaborators}.

Lemma str_empty_text :
  str_exn (HTTPException 400 EMPTY_TEXT_DETAIL)
  = py "400: Could not extract text from the PDF file.".
Proof. vm_compute. reflexivity. Qed.

Lemma str_parse_failure :
  str_exn (HTTPException 500 PARSE_FAILURE_DETAIL)
  = py "500: Failed to parse JSON from Gemini's response. The AI might not have returned a valid JSON object.".
Proof. vm_compute. reflexivity. Qed.

(** The empty-text check raises inside the [try], so its
    [HTTPException(400)] is caught by [except Exception] and leaves the
    handler as a 500 whose detail is [str] of the 400. *)
Lemma empty_text_reply (pdf_file : UploadFile) (content : bytes) :
  upload_read pdf_file = Return content ->
  extract_text_from_pdf content = Return [] ->
  post_extract_data pdf_file
  = (ErrorReply 500 (py "400: Could not extract text from the PDF file."), []).
Proof.
  intros Hread Htext. unfold post_extract_data.
  rewrite extract_data_from_pdf_paths, Hread, Htext. unfold caught, respond.
  now rewrite str_empty_text.
Qed.

(** The handler answers 200 or 500 and nothing else. *)
Lemma reply_status (pdf_file : UploadFile) :
  match (post_extract_data pdf_file).1 with
  | Reply r => status_code r = 200
  | ErrorReply status _ => status = 500
  end.
Proof.
  unfold post_extract_data. rewrite extract_data_from_pdf_paths.
  destruct (upload_read pdf_file) as [content | e]; [| reflexivity].
  destruct (extract_text_from_pdf content) as [[|c rest] | e]; try reflexivity.
  destruct (model_generate_content _) as [response | e]; [| reflexivity].
  destruct (response_text response) as [text | e].
  - destruct (json_loads _) as [v | e].
    + now destruct (render_error v).
    + now destruct (is_JSONDecodeError e).
  - now destruct (is_JSONDecodeError e).
Qed.

End Replies.

(** C1. The empty-text branch at the failing input: an upload whose only
    page has no text layer is answered with status 500, the detail being the
    stringified [HTTPException(400)], and no request is sent to the model. *)
Theorem image_only_scan_gets_500
    (d : PyLibs.diagnostics) (answer : result (result str)) (content : bytes) :
  @post_extract_data (Scenario.service d Scenario.image_only answer)
    (Scenario.upload content)
  = (ErrorReply 500 (py "400: Could not extract text from the PDF file."), []).
Proof.
  apply (empty_text_reply (Scenario.upload content) content).
  - reflexivity.
  - vm_compute. reflexivity.
Qed.

(** ** Replies of the endpoint *)

Section Outcomes.

Context `{Collaborators}.




Lemma after_prompt (pdf_file : UploadFile) (data : bytes) (c : N) (rest : str)
    (sent : outbound) :
  upload_read pdf_file = Return data ->
  extract_text_from_pdf data = Return (c :: rest) ->
  (extract_data_from_pdf pdf_file sent).2 = sent ++ [full_prompt_of (c :: rest)].
Proof.
  intros Hread Htext.
  now rewrite extract_data_from_pdf_paths, Hread, Htext.
Qed.

End Outcomes.

(** The listing answered by a document with an unpaired surrogate escape:
    [json.loads] accepts it, the rendering of the response does not. *)
Module LoneSurrogate.
Import Scenario.

Lemma text_extracted :
  exists c rest, @extract_text_from_pdf lone_surrogate_libs [] = Return (c :: rest).
Proof. eexists. eexists. vm_compute. reflexivity. Qed.

Lemma answer_parses :
  @json_loads lone_surrogate_libs (clean_response lone_surrogate_answer)
  = Return lone_surrogate_value.
Proof. vm_compute. reflexivity. Qed.

Lemma not_renderable : Json.renderable lone_surrogate_value = false.
Proof. vm_compute. reflexivity. Qed.

Lemma lone_surrogate_reply :
  (@post_extract_data lone_surrogate_libs (upload [])).1
  = ErrorReply 500
      (py "'utf-8' codec can't encode character '\ud800' in position 10: surrogates not allowed").
Proof. vm_compute. reflexivity. Qed.

End LoneSurrogate.

(** C2 (as stated) fails: a JSON document whose field value holds an
    unpaired surrogate escape is accepted by [json.loads], but the value
    cannot be rendered by [JSONResponse], and the reply is a 500. *)
Lemma parsed_value_not_always_returned : ~ parsed_value_always_returned.
Proof.
  intros Hall.
  destruct LoneSurrogate.text_extracted as (c & rest & Htext).
  pose proof (Hall Scenario.lone_surrogate_libs (Scenario.upload []) [] c rest
                (Return Scenario.lone_surrogate_answer)
                Scenario.lone_surrogate_answer Scenario.lone_surrogate_value
                eq_refl Htext eq_refl eq_refl LoneSurrogate.answer_parses)
    as Hreply.
  rewrite LoneSurrogate.lone_surrogate_reply in Hreply. discriminate Hreply.
Qed.

(** C2 (amended). When the cleaned AI answer parses to a value that the
    response can render, the reply is a 200 whose content is that value,
    unchanged, with the attachment header; one request was sent. *)
Theorem renderable_value_returned_verbatim `{Collaborators}
    (pdf_file : UploadFile) (data : bytes) (c : N) (rest : str)
    (response : GenerateContentResponse) (text : str) (v : Json.value) :
  upload_read pdf_file = Return data ->
  extract_text_from_pdf data = Return (c :: rest) ->
  model_generate_content (full_prompt_of (c :: rest)) = Return response ->
  response_text response = Return text ->
  json_loads (clean_response text) = Return v ->
  render_error v = None ->
  (post_extract_data pdf_file).1
  = Reply {| status_code := 200; content := v;
             media_type := py "application/json";
             headers := [(py "Content-Disposition",
                          py "attachment; filename=extracted_data.json")] |}.
Proof.
  intros Hread Htext Hmodel Hresp Hloads Hrender. unfold post_extract_data.
  rewrite extract_data_from_pdf_paths, Hread, Htext, Hmodel, Hresp, Hloads, Hrender.
  reflexivity.
Qed.

Lemma renderable_value_returned_verbatim_witness :
  (@post_extract_data Scenario.fenced_libs (Scenario.upload [])).1
  = Reply {| status_code := 200; content := Scenario.fenced_value;
             media_type := py "application/json";
             headers := [(py "Content-Disposition",
                          py "attachment; filename=extracted_data.json")] |}.
Proof.
  apply (@renderable_value_returned_verbatim Scenario.fenced_libs (Scenario.upload []) []
           (hd 0 Scenario.listing_text) (tl Scenario.listing_text)
           (Return Scenario.fenced_answer) Scenario.fenced_answer Scenario.fenced_value);
    vm_compute; reflexivity.
Defined.

(** ** What is not a JSON text *)

Module Rfc8259Facts.
Import Rfc8259.





Example null_with_spaces : json_text [32; 110; 117; 108; 108; 10].
Proof.
  exists [32], [110; 117; 108; 108], [10].
  repeat split. constructor.
Qed.

Example array_of_one : json_text [91; 49; 44; 32; 116; 114; 117; 101; 93].
Proof.
  exists [], [91; 49; 44; 32; 116; 114; 117; 101; 93], [].
  repeat split.
  apply (value_array [91] [49; 44; 32; 116; 114; 117; 101] [93]).
  - now exists [], [].
  - apply (elements_more [49] [44; 32] [116; 114; 117; 101]).
    + apply value_number. exists [], [49], [], [].
      repeat split; try (now left).
      right. exists 49, []. now repeat split.
    + now exists [], [32].
    + apply elements_one. constructor.
  - now exists [], [].
Qed.


Lemma bare_nan_accepted :
  Json.loads Scenario.cpython (clean_response Scenario2.bare_nan)
  = Json.Parsed (Json.JFloat Json.FNaN) [].
Proof. vm_compute. reflexivity. Qed.



End Rfc8259Facts.

(** The parse-failure reply is told from the reply to an upstream failure by
    its message alone: an upstream error with that text gets the same
    reply. *)
Remark upstream_error_with_the_same_text :
  (@post_extract_data Scenario2.echoing_libs (Scenario.upload [])).1
  = (@post_extract_data Scenario.refusal_libs (Scenario.upload [])).1.
Proof. vm_compute. reflexivity. Qed.




(** C6. A failure of the request other than the empty-text check and the
    decoding of the AI answer is answered with status 500 and, as message,
    [str] of the exception that was raised. *)
Theorem unclassified_failure_reported `{Collaborators}
    (pdf_file : UploadFile) (e : exn) :
  unclassified_failure pdf_file e ->
  (post_extract_data pdf_file).1 = ErrorReply 500 (str_exn e).
Proof.
  intros Hfail. unfold post_extract_data. rewrite extract_data_from_pdf_paths.
  destruct Hfail as
    [e Hread
    | data e Hread Hreader
    | data done texts page others e Hread Hreader Hdone Hpage
    | data c rest e Hread Htext Hmodel
    | data c rest response e Hread Htext Hmodel Hresp Hcls
    | data c rest response text e Hread Htext Hmodel Hresp Hloads Hcls
    | data c rest response text v e Hread Htext Hmodel Hresp Hloads Hrender];
    rewrite Hread.
  - reflexivity.
  - unfold extract_text_from_pdf. now rewrite Hreader.
  - unfold extract_text_from_pdf. rewrite Hreader. simpl.
    now rewrite (pages_loop_raise done texts page others e Hdone Hpage).
  - now rewrite Htext, Hmodel.
  - now rewrite Htext, Hmodel, Hresp, Hcls.
  - now rewrite Htext, Hmodel, Hresp, Hloads, Hcls.
  - now rewrite Htext, Hmodel, Hresp, Hloads, Hrender.
Qed.

Lemma unclassified_failure_reported_witness :
  (@post_extract_data Scenario.corrupt_libs (Scenario.upload [])).1
  = ErrorReply 500 (py "Stream has ended unexpectedly").
Proof.
  apply (@unclassified_failure_reported Scenario.corrupt_libs (Scenario.upload [])
           Scenario.corrupt_error).
  apply (@fail_reader Scenario.corrupt_libs (Scenario.upload []) [] Scenario.corrupt_error);
    reflexivity.
Defined.

(** C7. For a non-empty extracted text, the handler sends the AI service
    exactly one request, whose payload is the instruction block, the
    separator and the document text, in this order. *)
Theorem prompt_sent_once `{Collaborators}
    (pdf_file : UploadFile) (data : bytes) (c : N) (rest : str) (sent : outbound) :
  upload_read pdf_file = Return data ->
  extract_text_from_pdf data = Return (c :: rest) ->
  (extract_data_from_pdf pdf_file sent).2
  = sent ++ [PROMPT ++ py "

Document Text:
" ++ c :: rest].
Proof. apply after_prompt. Qed.

Lemma prompt_sent_once_witness :
  (@extract_data_from_pdf Scenario.fenced_libs (Scenario.upload []) []).2
  = [] ++ [PROMPT ++ py "

Document Text:
" ++ hd 0 Scenario.listing_text :: tl Scenario.listing_text].
Proof.
  apply (@prompt_sent_once Scenario.fenced_libs (Scenario.upload []) []
           (hd 0 Scenario.listing_text) (tl Scenario.listing_text) []);
    vm_compute; reflexivity.
Defined.

(** C10. An extracted text that is not empty but made of whitespace only
    passes the empty-text check: the prompt is built from it and sent to
    the AI service, whose answer decides the reply. *)
Theorem whitespace_text_reaches_model `{Collaborators}
    (pdf_file : UploadFile) (data : bytes) (c : N) (rest : str) :
  upload_read pdf_file = Return data ->
  extract_text_from_pdf data = Return (c :: rest) ->
  forallb Str.isspace (c :: rest) = true ->
  (post_extract_data pdf_file).2 = [full_prompt_of (c :: rest)]
  /\ (forall e,
        model_generate_content (full_prompt_of (c :: rest)) = Raise e ->
        (post_extract_data pdf_file).1 = ErrorReply 500 (str_exn e))
  /\ (forall response text v,
        model_generate_content (full_prompt_of (c :: rest)) = Return response ->
        response_text response = Return text ->
        json_loads (clean_response text) = Return v ->
        render_error v = None ->
        (post_extract_data pdf_file).1 = Reply (download_response v)).
Proof.
  intros Hread Htext _. unfold post_extract_data.
  rewrite extract_data_from_pdf_paths, Hread, Htext. split; [| split].
  - reflexivity.
  - intros e Hmodel. now rewrite Hmodel.
  - intros response text v Hmodel Hresp Hloads Hrender.
    now rewrite Hmodel, Hresp, Hloads, Hrender.
Qed.

Lemma whitespace_text_reaches_model_witness :
  (@post_extract_data Scenario.blank_libs (Scenario.upload [])).2
  = [full_prompt_of [12288; 10]]
  /\ (@post_extract_data Scenario.blank_libs (Scenario.upload [])).1
     = Reply (download_response Scenario.fenced_value).
Proof.
  destruct (@whitespace_text_reaches_model Scenario.blank_libs (Scenario.upload []) []
              12288 [10]) as (Hsent & _ & Hreply);
    try (vm_compute; reflexivity).
  split; [exact Hsent |].
  apply (Hreply (Return Scenario.fenced_answer) Scenario.fenced_answer);
    vm_compute; reflexivity.
Defined.

(** ** A fence inside a field value *)

Module FenceInValue.
Import Scenario.

Lemma answer_has_fence : Str.occurs FENCE fence_in_value.
Proof. apply StrFacts.contains_spec. vm_compute. reflexivity. Qed.

Lemma field_has_fence : Str.occurs FENCE fence_field.
Proof. apply StrFacts.contains_spec. vm_compute. reflexivity. Qed.

Lemma answer_denotes :
  Json.loads cpython fence_in_value = Json.Parsed fence_denoted [].
Proof. vm_compute. reflexivity. Qed.

Lemma fence_in_value_reply (d : PyLibs.diagnostics) (data : bytes) :
  (@post_extract_data
     (service d listing (Return (Return fence_in_value))) (upload data)).1
  = Reply (download_response fence_returned).
Proof. vm_compute. reflexivity. Qed.

Lemma values_differ : fence_returned <> fence_denoted.
Proof. intros Heq. vm_compute in Heq. discriminate Heq. Qed.

End FenceInValue.

(** C9. There is an AI answer that is valid JSON and has ["```"] inside a
    string field value for which the endpoint returns, with status 200, a
    value different from the one the answer denotes: the fences inside the
    field value are gone. *)
Theorem fence_inside_value_is_corrupted :
  exists (answer field : str) (denoted returned : Json.value),
    Str.occurs FENCE answer
    /\ Json.loads Scenario.cpython answer = Json.Parsed denoted []
    /\ denoted = Json.JDict [(py "Address", Json.JStr field)]
    /\ Str.occurs FENCE field
    /\ (forall (d : PyLibs.diagnostics) (data : bytes),
          (@post_extract_data
             (Scenario.service d Scenario.listing (Return (Return answer)))
             (Scenario.upload data)).1
          = Reply {| status_code := 200; content := returned;
                     media_type := py "application/json";
                     headers := [(py "Content-Disposition",
                                  py "attachment; filename=extracted_data.json")] |})
    /\ returned <> denoted.
Proof.
  exists Scenario.fence_in_value, Scenario.fence_field,
    Scenario.fence_denoted, Scenario.fence_returned.
  split; [apply FenceInValue.answer_has_fence |].
  split; [apply FenceInValue.answer_denotes |].
  split; [reflexivity |].
  split; [apply FenceInValue.field_has_fence |].
  split; [apply FenceInValue.fence_in_value_reply | apply FenceInValue.values_differ].
Qed.

(** ** Module initialisation *)

Module StartupFacts.
Import Startup.

Lemma main_module_without_key (env dotenv : gmap str str) :
  (env ∪ dotenv) !! py "GEMINI_API_KEY" = None ->
  main_module dotenv (boot env)
  = (Raise (Exception_ (py "ValueError")
              (py "GEMINI_API_KEY not found in .env file.")),
     {| environ := env ∪ dotenv; GEMINI_API_KEY := Some None;
        genai_api_key := None; model := None; app := None |}).
Proof.
  intros Hkey.
  unfold main_module, load_dotenv, os_getenv, assign_GEMINI_API_KEY,
    modify, get_state, raise, boot.
  unfold mbind, mret, st_bind, st_ret. simpl. now rewrite Hkey.
Qed.

(** An empty credential is refused as well. *)
Lemma main_module_with_empty_key (env dotenv : gmap str str) :
  (env ∪ dotenv) !! py "GEMINI_API_KEY" = Some ([] : str) ->
  (main_module dotenv (boot env)).1
  = Raise (Exception_ (py "ValueError")
             (py "GEMINI_API_KEY not found in .env file.")).
Proof.
  intros Hkey.
  unfold main_module, load_dotenv, os_getenv, assign_GEMINI_API_KEY,
    modify, get_state, raise, boot.
  unfold mbind, mret, st_bind, st_ret. simpl. now rewrite Hkey.
Qed.

(** With a credential, the module is imported to its end and both routes
    are registered. *)
Lemma main_module_with_key (env dotenv : gmap str str) (c : N) (rest : str) :
  (env ∪ dotenv) !! py "GEMINI_API_KEY" = Some (c :: rest : str) ->
  exists p,
    main_module dotenv (boot env) = (Return tt, p)
    /\ dispatch p (py "POST") (py "/extract-data/") = Some extract_data
    /\ dispatch p (py "GET") (py "/") = Some read_root.
Proof.
  intros Hkey. eexists. split.
  - unfold main_module, load_dotenv, os_getenv, assign_GEMINI_API_KEY,
      genai_configure, assign_model, assign_app, add_route,
      modify, get_state, raise, boot.
    unfold mbind, mret, st_bind, st_ret. simpl. rewrite Hkey. reflexivity.
  - split; vm_compute; reflexivity.
Qed.

End StartupFacts.

(** C8. Without the credential in the environment (the process environment
    and the [.env] file), the import of the module ends with a [ValueError]
    before the application exists and before any route is registered, so no
    request is dispatched to an endpoint. *)
Theorem missing_credential_prevents_startup (env dotenv : gmap str str) :
  env !! py "GEMINI_API_KEY" = None ->
  dotenv !! py "GEMINI_API_KEY" = None ->
  exists p,
    Startup.main_module dotenv (Startup.boot env)
    = (Raise (Exception_ (py "ValueError")
                (py "GEMINI_API_KEY not found in .env file.")), p)
    /\ Startup.app p = None
    /\ forall m pth, Startup.dispatch p m pth = None.
Proof.
  intros Henv Hdotenv. eexists. split; [| split].
  - apply StartupFacts.main_module_without_key.
    apply lookup_union_None. now split.
  - reflexivity.
  - reflexivity.
Qed.

Lemma missing_credential_prevents_startup_witness :
  exists p,
    Startup.main_module ∅ (Startup.boot ∅)
    = (Raise (Exception_ (py "ValueError")
                (py "GEMINI_API_KEY not found in .env file.")), p)
    /\ Startup.app p = None
    /\ forall m pth, Startup.dispatch p m pth = None.
Proof.
  apply (missing_credential_prevents_startup ∅ ∅); apply lookup_empty.
Defined.

(** * Further properties *)

(** ** The text extractor, continued *)

Section ExtractorMore.

Context `{Collaborators}.

Lemma pages_loop_raise_inv (pages : list Page) (e : exn) :
  forall text,
    pages_loop text pages = Raise e ->
    exists done texts page rest,
      pages = done ++ page :: rest
      /\ Forall2 (fun p t => page_extract_text p = Return t) done texts
      /\ page_extract_text page = Raise e.
Proof.
  induction pages as [|p pages IH]; intros text Hloop; [discriminate Hloop |].
  simpl in Hloop. destruct (page_extract_text p) as [t | e'] eqn:Hp.
  - simpl in Hloop. apply IH in Hloop.
    destruct Hloop as (done & texts & page & rest & -> & Hdone & Hpage).
    exists (p :: done), (t :: texts), page, rest.
    split; [reflexivity | split; [| exact Hpage]].
    now constructor.
  - simpl in Hloop. injection Hloop as ->.
    exists [], [], p, pages. repeat split; [constructor | exact Hp].
Qed.

(** The accumulated text is a prefix of the result. *)
Lemma pages_loop_shift (pages : list Page) :
  forall before text,
    pages_loop (before ++ text) pages
    = match pages_loop text pages with
      | Return t => Return (before ++ t)
      | Raise e => Raise e
      end.
Proof.
  induction pages as [|p pages IH]; intros before text; simpl; [reflexivity |].
  destruct (page_extract_text p) as [t | e]; simpl; [| reflexivity].
  now rewrite <- app_assoc, IH.
Qed.

Lemma pages_loop_app (ps qs : list Page) :
  forall text,
    pages_loop text (ps ++ qs)
    = match pages_loop text ps with
      | Return t => pages_loop t qs
      | Raise e => Raise e
      end.
Proof.
  induction ps as [|p ps IH]; intros text; simpl; [reflexivity |].
  destruct (page_extract_text p) as [t | e]; simpl; [apply IH | reflexivity].
Qed.

Lemma or_empty_nil (t : option str) :
  or_empty t = [] <-> t = None \/ t = Some [].
Proof.
  destruct t as [[|c rest] |]; simpl; split; intros Hx; auto; try discriminate.
  destruct Hx as [Hx | Hx]; discriminate Hx.
Qed.

Lemma concat_nil_iff (parts : list str) :
  concat parts = [] <-> Forall (fun part => part = []) parts.
Proof.
  induction parts as [|part parts IH]; simpl.
  - split; [constructor | reflexivity].
  - split.
    + intros [-> Hrest]%app_eq_nil. constructor; [reflexivity | now apply IH].
    + intros Hall. inversion Hall as [|? ? -> Hrest]. now apply IH.
Qed.

End ExtractorMore.

(** X1. The extractor fails exactly when the reader refuses the file or a
    page refuses to give its text; the exception is the reader's, or that
    of the first such page, and the text gathered so far is dropped. *)
Theorem extractor_failure `{Collaborators} (file_stream : bytes) (e : exn) :
  extract_text_from_pdf file_stream = Raise e
  <-> PdfReader file_stream = Raise e
      \/ exists done texts page rest,
           PdfReader file_stream = Return (done ++ page :: rest)
           /\ Forall2 (fun p t => page_extract_text p = Return t) done texts
           /\ page_extract_text page = Raise e.
Proof.
  unfold extract_text_from_pdf. split.
  - destruct (PdfReader file_stream) as [pages | e'] eqn:Hreader; simpl.
    + intros Hloop. right. apply pages_loop_raise_inv in Hloop.
      destruct Hloop as (done & texts & page & rest & -> & Hdone & Hpage).
      now exists done, texts, page, rest.
    + intros Hraise. injection Hraise as ->. now left.
  - intros [Hreader | (done & texts & page & rest & Hreader & Hdone & Hpage)];
      rewrite Hreader; simpl; [reflexivity |].
    now apply (pages_loop_raise done texts).
Qed.

(** X2. For a document whose pages all yield, the extracted text is empty
    exactly when no page has text (each gives [None] or the empty string);
    a document without pages is such a document. *)
Theorem extractor_empty_iff `{Collaborators}
    (file_stream : bytes) (pages : list Page) (texts : list (option str)) :
  PdfReader file_stream = Return pages ->
  Forall2 (fun page t => page_extract_text page = Return t) pages texts ->
  (extract_text_from_pdf file_stream = Return []
   <-> Forall (fun t => t = None \/ t = Some []) texts).
Proof.
  intros Hreader Hpages. unfold extract_text_from_pdf. rewrite Hreader. simpl.
  rewrite (pages_loop_concat pages texts Hpages). simpl. split.
  - intros Hnil. injection Hnil as Hnil. apply concat_nil_iff in Hnil.
    clear Hreader Hpages. induction texts as [|t texts IH]; [constructor |].
    inversion Hnil as [|? ? Ht Hrest]. constructor; [| now apply IH].
    now apply or_empty_nil.
  - intros Hall. f_equal. apply concat_nil_iff.
    clear Hreader Hpages. induction Hall as [|t texts Ht _ IH]; simpl; constructor.
    + now apply or_empty_nil.
    + exact IH.
Qed.

Lemma extractor_empty_iff_witness :
  @extract_text_from_pdf
    (Scenario.service Scenario.sample [None; Some []] (Return (Return [])))
    []
  = Return [].
Proof.
  apply (@extractor_empty_iff
           (Scenario.service Scenario.sample [None; Some []] (Return (Return [])))
           [] [Return None; Return (Some [])] [None; Some []]).
  - reflexivity.
  - repeat constructor.
  - constructor; [left; reflexivity |].
    constructor; [right; reflexivity | constructor].
Defined.

(** X3. The text of a document made of the pages of two documents, one
    after the other, is the text of the first followed by the text of the
    second. *)
Theorem extractor_merged_documents `{Collaborators}
    (first second merged : bytes) (ps qs : list Page) (t1 t2 : str) :
  PdfReader first = Return ps ->
  PdfReader second = Return qs ->
  PdfReader merged = Return (ps ++ qs) ->
  extract_text_from_pdf first = Return t1 ->
  extract_text_from_pdf second = Return t2 ->
  extract_text_from_pdf merged = Return (t1 ++ t2).
Proof.
  unfold extract_text_from_pdf. intros -> -> ->. simpl. intros H1 H2.
  rewrite pages_loop_app, H1.
  rewrite <- (app_nil_r t1) at 1. now rewrite pages_loop_shift, H2.
Qed.

Lemma extractor_merged_documents_witness :
  @extract_text_from_pdf Scenario2.parts_libs [x00; x00]
  = Return (py "価格: 3000万円" ++ py "所在地: 東京都渋谷区").
Proof.
  apply (@extractor_merged_documents Scenario2.parts_libs [] [x00] [x00; x00]
           Scenario2.part1 Scenario2.part2);
    vm_compute; reflexivity.
Defined.

(** ** The handler, continued *)

(** X4. Whatever the upload is and whatever the collaborators return or
    raise among the [Exception]s, the handler either returns the download
    response (status 200, media type [application/json], the attachment
    header) or raises an [HTTPException] with status 500: it never answers
    400, and no other [Exception] leaves it.  (What derives from
    [BaseException] only passes through [except Exception]; the statement
    does not cover it.) *)
Theorem handler_answers_200_or_500 `{Collaborators}
    (pdf_file : UploadFile) (sent : outbound) :
  match (extract_data_from_pdf pdf_file sent).1 with
  | Return r =>
      status_code r = 200
      /\ media_type r = py "application/json"
      /\ headers r = [(py "Content-Disposition",
                       py "attachment; filename=extracted_data.json")]
  | Raise (HTTPException status _) => status = 500
  | Raise _ => False
  end.
Proof.
  rewrite extract_data_from_pdf_paths.
  destruct (upload_read pdf_file) as [data | e]; [| reflexivity].
  destruct (extract_text_from_pdf data) as [[|c rest] | e]; try reflexivity.
  destruct (model_generate_content _) as [response | e]; [| reflexivity].
  destruct (response_text response) as [text | e].
  - destruct (json_loads _) as [v | e].
    + destruct (render_error v); [reflexivity | now repeat split].
    + now destruct (is_JSONDecodeError e).
  - now destruct (is_JSONDecodeError e).
Qed.

(** X5. A request is handled without regard to the requests sent before:
    the handler appends at most one request to the log, leaves the earlier
    ones in place, and its result does not depend on them. *)
Theorem handler_request_log `{Collaborators}
    (pdf_file : UploadFile) (sent : outbound) :
  (extract_data_from_pdf pdf_file sent).2
  = sent ++ (extract_data_from_pdf pdf_file []).2
  /\ (extract_data_from_pdf pdf_file sent).1
     = (extract_data_from_pdf pdf_file []).1
  /\ (length (extract_data_from_pdf pdf_file []).2 <= 1)%nat.
Proof.
  rewrite !extract_data_from_pdf_paths.
  destruct (upload_read pdf_file) as [data | e];
    [| simpl; rewrite app_nil_r; repeat split; lia].
  destruct (extract_text_from_pdf data) as [[|c rest] | e];
    simpl; rewrite ?app_nil_r; repeat split; lia.
Qed.

(** X6. No request is sent to the AI service unless the upload was read and
    a non-empty text was extracted from it: an unreadable upload, a failed
    extraction and an empty text cost no call. *)
Theorem no_request_without_text `{Collaborators} (pdf_file : UploadFile) :
  (post_extract_data pdf_file).2 = []
  <-> forall data c rest,
        upload_read pdf_file = Return data ->
        extract_text_from_pdf data <> Return (c :: rest).
Proof.
  unfold post_extract_data. rewrite extract_data_from_pdf_paths. split.
  - intros Hsent data c rest Hread Htext. rewrite Hread, Htext in Hsent.
    discriminate Hsent.
  - intros Hnone.
    destruct (upload_read pdf_file) as [data | e]; [| reflexivity].
    specialize (Hnone data).
    destruct (extract_text_from_pdf data) as [[|c rest] | e]; try reflexivity.
    now destruct (Hnone c rest).
Qed.

(** X7. A reply with status 200 is always the rendering of what the AI
    answered: the upload was read, a non-empty text was extracted and sent
    in the one request made, the answer had a text whose cleaned form
    [json.loads] accepted, and the reply carries exactly that value. *)
Theorem success_comes_from_the_answer `{Collaborators}
    (pdf_file : UploadFile) (r : JSONResponse) :
  (post_extract_data pdf_file).1 = Reply r ->
  exists data c rest response text v,
    upload_read pdf_file = Return data
    /\ extract_text_from_pdf data = Return (c :: rest)
    /\ model_generate_content (full_prompt_of (c :: rest)) = Return response
    /\ response_text response = Return text
    /\ json_loads (clean_response text) = Return v
    /\ render_error v = None
    /\ r = download_response v
    /\ (post_extract_data pdf_file).2 = [full_prompt_of (c :: rest)].
Proof.
  unfold post_extract_data. rewrite extract_data_from_pdf_paths.
  destruct (upload_read pdf_file) as [data | e]; [| discriminate].
  destruct (extract_text_from_pdf data) as [[|c rest] | e] eqn:Htext;
    try discriminate.
  destruct (model_generate_content _) as [response | e] eqn:Hmodel;
    [| discriminate].
  destruct (response_text response) as [text | e] eqn:Hresp;
    [| now destruct (is_JSONDecodeError e)].
  destruct (json_loads _) as [v | e] eqn:Hloads;
    [| now destruct (is_JSONDecodeError e)].
  destruct (render_error v) eqn:Hrender; [discriminate |].
  intros Hreply. injection Hreply as <-.
  now exists data, c, rest, response, text, v.
Qed.

Lemma success_comes_from_the_answer_witness :
  exists data c rest response text v,
    @upload_read (Scenario.upload []) = Return data
    /\ @extract_text_from_pdf Scenario.fenced_libs data = Return (c :: rest)
    /\ @model_generate_content Scenario.fenced_libs (full_prompt_of (c :: rest))
       = Return response
    /\ @response_text Scenario.fenced_libs response = Return text
    /\ @json_loads Scenario.fenced_libs (clean_response text) = Return v
    /\ @render_error Scenario.fenced_libs v = None
    /\ download_response Scenario.fenced_value = download_response v
    /\ (@post_extract_data Scenario.fenced_libs (Scenario.upload [])).2
       = [full_prompt_of (c :: rest)].
Proof.
  apply (@success_comes_from_the_answer Scenario.fenced_libs (Scenario.upload [])
           (download_response Scenario.fenced_value)).
  vm_compute. reflexivity.
Defined.

(** X8. The [try] around the parsing covers the reading of the answer's
    text as well: a [JSONDecodeError] raised by [response.text] is reported
    as a parse failure, like one raised by [json.loads]. *)
Theorem text_decode_error_is_parse_failure `{Collaborators}
    (pdf_file : UploadFile) (data : bytes) (c : N) (rest : str)
    (response : GenerateContentResponse) (e : exn) :
  upload_read pdf_file = Return data ->
  extract_text_from_pdf data = Return (c :: rest) ->
  model_generate_content (full_prompt_of (c :: rest)) = Return response ->
  response_text response = Raise e ->
  is_JSONDecodeError e = true ->
  (post_extract_data pdf_file).1
  = ErrorReply 500
      (py "500: Failed to parse JSON from Gemini's response. The AI might not have returned a valid JSON object.").
Proof.
  intros Hread Htext Hmodel Hresp Hcls. unfold post_extract_data.
  rewrite extract_data_from_pdf_paths, Hread, Htext, Hmodel, Hresp, Hcls.
  unfold caught, respond, fst. now rewrite str_parse_failure.
Qed.

Lemma text_decode_error_is_parse_failure_witness :
  (@post_extract_data Scenario2.text_error_libs (Scenario.upload [])).1
  = ErrorReply 500
      (py "500: Failed to parse JSON from Gemini's response. The AI might not have returned a valid JSON object.").
Proof.
  apply (@text_decode_error_is_parse_failure Scenario2.text_error_libs
           (Scenario.upload []) []
           (hd 0 Scenario.listing_text) (tl Scenario.listing_text)
           (Raise Scenario2.text_error) Scenario2.text_error);
    vm_compute; reflexivity.
Defined.

(** ** Trimming and fences, continued *)

Module StripFacts.
Import Str.

Lemma lstrip_spaces (ws s : str) :
  forallb isspace ws = true -> lstrip (ws ++ s) = lstrip s.
Proof.
  induction ws as [|c ws IH]; simpl; [reflexivity |].
  intros [Hc Hws]%andb_true_iff. rewrite Hc. now apply IH.
Qed.

Lemma lstrip_head (a : N) (s : str) :
  isspace a = false -> lstrip (a :: s) = a :: s.
Proof. intros Ha. simpl. now rewrite Ha. Qed.

(** [lstrip] removes a run of whitespace from the front, nothing else. *)
Lemma lstrip_decompose (s : str) :
  exists ws, s = ws ++ lstrip s /\ forallb isspace ws = true.
Proof.
  induction s as [|c s (ws & Hs & Hws)]; [now exists [] |].
  simpl. destruct (isspace c) eqn:Hc.
  - exists (c :: ws). simpl. rewrite Hc, Hws. split; [now rewrite <- Hs | reflexivity].
  - now exists [].
Qed.

Lemma forallb_rev (f : N -> bool) (l : str) :
  forallb f (rev l) = forallb f l.
Proof.
  induction l as [|c l IH]; [reflexivity |].
  simpl. rewrite forallb_app, IH. simpl. rewrite andb_true_r. apply andb_comm.
Qed.

(** [strip] removes a run of whitespace at each end, nothing else. *)
Lemma strip_decompose (s : str) :
  exists ws1 ws2,
    s = ws1 ++ strip s ++ ws2
    /\ forallb isspace ws1 = true /\ forallb isspace ws2 = true.
Proof.
  unfold strip, rstrip.
  destruct (lstrip_decompose s) as (ws1 & Hs & Hws1).
  destruct (lstrip_decompose (rev (lstrip s))) as (ws2 & Hr & Hws2).
  exists ws1, (rev ws2). split; [| split; [exact Hws1 | now rewrite forallb_rev]].
  rewrite Hs at 1. f_equal.
  transitivity (rev (rev (lstrip s))); [symmetry; apply rev_involutive |].
  rewrite Hr at 1. apply rev_app_distr.
Qed.

(** A text that neither starts nor ends with whitespace is what [strip]
    gives back when whitespace is put around it. *)
Lemma strip_padded (ws1 m ws2 : str) (a z : N) :
  forallb isspace ws1 = true ->
  forallb isspace ws2 = true ->
  head m = Some a -> isspace a = false ->
  last m = Some z -> isspace z = false ->
  strip (ws1 ++ m ++ ws2) = m.
Proof.
  intros Hws1 Hws2 Ha Hsa Hz Hsz. unfold strip, rstrip.
  rewrite (lstrip_spaces ws1) by exact Hws1.
  destruct m as [|a' m']; [discriminate Ha |]. injection Ha as ->.
  change ((a :: m') ++ ws2) with (a :: (m' ++ ws2)).
  rewrite (lstrip_head a) by exact Hsa.
  change (a :: m' ++ ws2) with ((a :: m') ++ ws2).
  rewrite rev_app_distr, lstrip_spaces by now rewrite forallb_rev.
  apply last_Some in Hz as [m0 Hm0]. rewrite Hm0, rev_app_distr.
  change (rev [z] ++ rev m0) with (z :: rev m0).
  rewrite (lstrip_head z) by exact Hsz.
  change (z :: rev m0) with (rev [z] ++ rev m0).
  now rewrite <- rev_app_distr, rev_involutive.
Qed.

End StripFacts.

Module FenceMore.
Import Str StrFacts FenceFacts.

(** Characters that cannot start an occurrence are copied. *)
Lemma replace_from_prefix (a : N) (old new pre s : str) :
  forallb (fun c => negb (c =? a)) pre = true ->
  replace_from (a :: old) new 0 (pre ++ s)
  = pre ++ replace_from (a :: old) new 0 s.
Proof.
  induction pre as [|c pre IH]; [reflexivity |].
  simpl forallb. intros [Hc Hpre]%andb_true_iff.
  change ((c :: pre) ++ s) with (c :: (pre ++ s)).
  rewrite replace_from_miss.
  - now rewrite IH.
  - rewrite startswith_cons, N.eqb_sym.
    apply negb_true_iff in Hc. now rewrite Hc.
Qed.

(** Replacing by the empty string only deletes characters. *)
Lemma replace_from_sublist (old : str) (s : str) :
  forall k, replace_from old [] k s `sublist_of` s.
Proof.
  induction s as [|c s IH]; intros k; [constructor |].
  simpl. destruct k as [|k].
  - destruct (startswith old (c :: s)); simpl.
    + apply sublist_cons, IH.
    + apply sublist_skip, IH.
  - apply sublist_cons, IH.
Qed.

Lemma strip_fences_sublist (s : str) : strip_fences s `sublist_of` s.
Proof.
  unfold strip_fences, replace. rewrite FENCE_eq, FENCE_JSON_eq.
  etransitivity; apply replace_from_sublist.
Qed.

Lemma strip_sublist (s : str) : strip s `sublist_of` s.
Proof.
  destruct (StripFacts.strip_decompose s) as (ws1 & ws2 & Hs & _).
  rewrite Hs at 2. apply sublist_inserts_l, sublist_inserts_r. reflexivity.
Qed.

Lemma strip_fences_fenced (body : str) :
  forallb (fun c => negb (c =? 96)) body = true ->
  strip_fences (FENCE_JSON ++ body ++ FENCE) = body.
Proof.
  intros Hbody. unfold strip_fences, replace.
  rewrite FENCE_eq, FENCE_JSON_eq. simpl.
  rewrite (replace_from_prefix 96) by exact Hbody. simpl.
  rewrite (replace_from_prefix 96) by exact Hbody. simpl.
  apply app_nil_r.
Qed.

Lemma strip_fences_plain_fenced (b : N) (body : str) :
  (b =? 96) = false -> (b =? 106) = false ->
  forallb (fun c => negb (c =? 96)) body = true ->
  strip_fences (FENCE ++ b :: body ++ FENCE) = b :: body.
Proof.
  intros Hb Hj Hbody. rewrite N.eqb_sym in Hb, Hj.
  unfold strip_fences, replace. rewrite FENCE_eq, FENCE_JSON_eq.
  change ([96; 96; 96] ++ b :: body ++ [96; 96; 96])
    with (96 :: 96 :: 96 :: b :: (body ++ [96; 96; 96])).
  (* no ["```json"]: the fence is not followed by a [j] *)
  rewrite (replace_from_miss [96; 96; 96; 106; 115; 111; 110])
    by (rewrite !startswith_cons, Hj; reflexivity).
  rewrite (replace_from_miss [96; 96; 96; 106; 115; 111; 110])
    by (rewrite !startswith_cons, Hb; reflexivity).
  rewrite (replace_from_miss [96; 96; 96; 106; 115; 111; 110])
    by (rewrite !startswith_cons, Hb; reflexivity).
  rewrite (replace_from_miss [96; 96; 96; 106; 115; 111; 110])
    by (rewrite startswith_cons, Hb; reflexivity).
  rewrite (replace_from_prefix 96 [96; 96; 106; 115; 111; 110]) by exact Hbody.
  change (replace_from [96; 96; 96; 106; 115; 111; 110] [] 0 [96; 96; 96])
    with [96; 96; 96].
  (* the two fences go *)
  change (replace_from [96; 96; 96] [] 0
            (96 :: 96 :: 96 :: b :: body ++ [96; 96; 96]))
    with (replace_from [96; 96; 96] [] 0 (b :: body ++ [96; 96; 96])).
  rewrite replace_from_miss by (rewrite startswith_cons, Hb; reflexivity).
  rewrite (replace_from_prefix 96) by exact Hbody.
  change (replace_from [96; 96; 96] [] 0 [96; 96; 96]) with (@nil N).
  now rewrite app_nil_r.
Qed.

(** Whitespace around a fenced block is what [strip] removes. *)
Lemma strip_fenced_block (ws1 body ws2 : str) :
  forallb isspace ws1 = true ->
  forallb isspace ws2 = true ->
  strip (ws1 ++ FENCE_JSON ++ body ++ FENCE ++ ws2)
  = FENCE_JSON ++ body ++ FENCE.
Proof.
  intros Hws1 Hws2.
  replace (ws1 ++ FENCE_JSON ++ body ++ FENCE ++ ws2)
    with (ws1 ++ (FENCE_JSON ++ body ++ FENCE) ++ ws2)
    by (rewrite <- !app_assoc; reflexivity).
  apply (StripFacts.strip_padded ws1 _ ws2 96 96); try assumption.
  - rewrite FENCE_JSON_eq. reflexivity.
  - reflexivity.
  - rewrite FENCE_eq.
    change [96; 96; 96] with ([96; 96] ++ [96]).
    rewrite !app_assoc. apply last_snoc.
  - reflexivity.
Qed.

End FenceMore.

(** X9. An answer that is a [```json] block, with whitespace around it or
    not, is cleaned to the body of the block, provided the body holds no
    backtick: the body reaches [json.loads] unchanged, with the line breaks
    that follow and precede the fences. *)
Theorem fenced_block_yields_body (ws1 body ws2 : str) :
  forallb Str.isspace ws1 = true ->
  forallb Str.isspace ws2 = true ->
  forallb (fun c => negb (c =? 96)) body = true ->
  clean_response (ws1 ++ FENCE_JSON ++ body ++ FENCE ++ ws2) = body.
Proof.
  intros Hws1 Hws2 Hbody. unfold clean_response.
  rewrite (FenceMore.strip_fenced_block ws1 body ws2 Hws1 Hws2).
  now apply FenceMore.strip_fences_fenced.
Qed.

Lemma fenced_block_yields_body_witness :
  clean_response ([10; 32] ++ FENCE_JSON ++ Scenario2.body ++ FENCE ++ [10])
  = Scenario2.body.
Proof.
  apply (fenced_block_yields_body [10; 32] Scenario2.body [10]);
    vm_compute; reflexivity.
Defined.

(** X10. The same holds for a block opened by a bare fence, provided the
    body does not start with [j] (so that the opening fence is not read as
    the start of [```json]) and holds no backtick. *)
Theorem plain_fenced_block_yields_body (ws1 : str) (b : N) (body ws2 : str) :
  forallb Str.isspace ws1 = true ->
  forallb Str.isspace ws2 = true ->
  (b =? 96) = false ->
  (b =? 106) = false ->
  forallb (fun c => negb (c =? 96)) body = true ->
  clean_response (ws1 ++ FENCE ++ (b :: body) ++ FENCE ++ ws2) = b :: body.
Proof.
  intros Hws1 Hws2 Hb Hj Hbody. unfold clean_response.
  replace (ws1 ++ FENCE ++ (b :: body) ++ FENCE ++ ws2)
    with (ws1 ++ (FENCE ++ b :: body ++ FENCE) ++ ws2)
    by (rewrite <- !app_assoc; simpl; rewrite <- !app_assoc; reflexivity).
  rewrite (StripFacts.strip_padded ws1 _ ws2 96 96); try assumption.
  - now apply FenceMore.strip_fences_plain_fenced.
  - rewrite FenceFacts.FENCE_eq. reflexivity.
  - reflexivity.
  - rewrite FenceFacts.FENCE_eq.
    change (b :: body ++ [96; 96; 96]) with ((b :: body) ++ [96; 96] ++ [96]).
    rewrite !app_assoc. apply last_snoc.
  - reflexivity.
Qed.

Lemma plain_fenced_block_yields_body_witness :
  clean_response ([32] ++ FENCE ++ (10 :: tl Scenario2.body) ++ FENCE ++ [10])
  = 10 :: tl Scenario2.body.
Proof.
  apply (plain_fenced_block_yields_body [32] 10 (tl Scenario2.body) [10]);
    vm_compute; reflexivity.
Defined.

(** X11. An answer without any fence is only trimmed: whitespace around a
    text that holds no ["```"] and neither starts nor ends with whitespace
    is removed, and the text itself is what [json.loads] receives. *)
Theorem unfenced_answer_only_trimmed (ws1 body ws2 : str) (a z : N) :
  forallb Str.isspace ws1 = true ->
  forallb Str.isspace ws2 = true ->
  head body = Some a -> Str.isspace a = false ->
  last body = Some z -> Str.isspace z = false ->
  Str.contains FENCE body = false ->
  clean_response (ws1 ++ body ++ ws2) = body.
Proof.
  intros Hws1 Hws2 Ha Hsa Hz Hsz Hfence. unfold clean_response.
  rewrite (StripFacts.strip_padded ws1 body ws2 a z) by assumption.
  now apply FenceFacts.strip_fences_fixed.
Qed.

Lemma unfenced_answer_only_trimmed_witness :
  clean_response ([10] ++ json_text "{'Price': null}" ++ [32; 10])
  = json_text "{'Price': null}".
Proof.
  apply (unfenced_answer_only_trimmed [10] (json_text "{'Price': null}")
           [32; 10] 123 125);
    vm_compute; reflexivity.
Defined.

(** X12. Cleaning an answer only deletes characters: the cleaned text is a
    subsequence of the answer (nothing is inserted, replaced or reordered)
    and is never longer than it. *)
Theorem clean_response_only_deletes (text : str) :
  clean_response text `sublist_of` text
  /\ (length (clean_response text) <= length text)%nat.
Proof.
  assert (Hsub : clean_response text `sublist_of` text).
  { unfold clean_response. etransitivity.
    - apply FenceMore.strip_fences_sublist.
    - apply FenceMore.strip_sublist. }
  split; [exact Hsub | now apply sublist_length].
Qed.

(** ** Module initialisation, continued *)

Module StartupMore.
Import Startup.


Lemma main_module_with_key_state (env dotenv : gmap str str) (c : N) (rest : str) :
  (env ∪ dotenv) !! py "GEMINI_API_KEY" = Some (c :: rest : str) ->
  main_module dotenv (boot env)
  = (Return tt,
     {| environ := env ∪ dotenv;
        GEMINI_API_KEY := Some (Some (c :: rest));
        genai_api_key := Some (c :: rest);
        model := Some (py "gemini-2.5-flash");
        app := Some (fastapi_routes
                       ++ [ {| method := py "GET"; path := py "/";
                               target := read_root |};
                            {| method := py "POST"; path := py "/extract-data/";
                               target := extract_data |} ]) |}).
Proof.
  intros Hkey.
  unfold main_module, load_dotenv, os_getenv, assign_GEMINI_API_KEY,
    genai_configure, assign_model, assign_app, add_route,
    modify, get_state, raise, boot.
  unfold mbind, mret, st_bind, st_ret. simpl. rewrite Hkey. reflexivity.
Qed.




End StartupMore.

(** X13. The module is imported to its end exactly when the credential, as
    looked up after the [.env] file has been loaded, is a non-empty string:
    a missing credential and an empty one both stop the import. *)
Theorem startup_succeeds_iff (env dotenv : gmap str str) :
  (Startup.main_module dotenv (Startup.boot env)).1 = Return tt
  <-> exists c rest,
        (env ∪ dotenv) !! py "GEMINI_API_KEY" = Some (c :: rest : str).
Proof.
  destruct ((env ∪ dotenv) !! py "GEMINI_API_KEY") as [[|c rest] |] eqn:Hkey.
  - rewrite (StartupFacts.main_module_with_empty_key env dotenv Hkey).
    split; [discriminate | intros (c & rest & Hx); discriminate Hx].
  - rewrite (StartupMore.main_module_with_key_state env dotenv c rest Hkey).
    split; [intros _; now exists c, rest | reflexivity].
  - rewrite (StartupFacts.main_module_without_key env dotenv Hkey).
    split; [discriminate | intros (c & rest & Hx); discriminate Hx].
Qed.



(** X15. The credential comes from the process environment when it is set
    there, and from the [.env] file otherwise: a value in the environment
    is never replaced by the one of the file. *)
Theorem credential_source (env dotenv : gmap str str) (c : N) (rest : str) :
  env !! py "GEMINI_API_KEY" = Some (c :: rest : str)
  \/ (env !! py "GEMINI_API_KEY" = None
      /\ dotenv !! py "GEMINI_API_KEY" = Some (c :: rest : str)) ->
  (Startup.main_module dotenv (Startup.boot env)).1 = Return tt
  /\ Startup.genai_api_key (Startup.main_module dotenv (Startup.boot env)).2
     = Some (c :: rest).
Proof.
  intros Hsource.
  assert (Hkey : (env ∪ dotenv) !! py "GEMINI_API_KEY" = Some (c :: rest : str)).
  { destruct Hsource as [Henv | [Henv Hdotenv]].
    - now apply lookup_union_Some_l.
    - now rewrite lookup_union_r. }
  now rewrite (StartupMore.main_module_with_key_state env dotenv c rest Hkey).
Qed.

Lemma credential_source_witness :
  (Startup.main_module {[ py "GEMINI_API_KEY" := [100] ]}
     (Startup.boot {[ py "GEMINI_API_KEY" := [101] ]})).1 = Return tt
  /\ Startup.genai_api_key
       (Startup.main_module {[ py "GEMINI_API_KEY" := [100] ]}
          (Startup.boot {[ py "GEMINI_API_KEY" := [101] ]})).2
     = Some [101].
Proof.
  apply (credential_source {[ py "GEMINI_API_KEY" := [101] ]}
           {[ py "GEMINI_API_KEY" := [100] ]} 101 []).
  left. apply lookup_singleton_eq.
Defined.

(** X16. A credential that is set to the empty string in the process
    environment stops the import whatever the [.env] file holds: the file
    does not replace it, and the empty value is refused. *)
Theorem empty_environment_value_masks_dotenv (env dotenv : gmap str str) :
  env !! py "GEMINI_API_KEY" = Some ([] : str) ->
  (Startup.main_module dotenv (Startup.boot env)).1
  = Raise (Exception_ (py "ValueError")
             (py "GEMINI_API_KEY not found in .env file.")).
Proof.
  intros Henv. apply StartupFacts.main_module_with_empty_key.
  now apply lookup_union_Some_l.
Qed.

Lemma empty_environment_value_masks_dotenv_witness :
  (Startup.main_module {[ py "GEMINI_API_KEY" := [100] ]}
     (Startup.boot {[ py "GEMINI_API_KEY" := [] ]})).1
  = Raise (Exception_ (py "ValueError")
             (py "GEMINI_API_KEY not found in .env file.")).
Proof.
  apply (empty_environment_value_masks_dotenv {[ py "GEMINI_API_KEY" := [] ]}
           {[ py "GEMINI_API_KEY" := [100] ]}).
  apply lookup_singleton_eq.
Defined.

(** ** The landing page *)

Example read_root_is_a_page :
  html_status_code read_root = 200
  /\ Str.contains (json_text "<a href='/docs' class='link-btn'>")
       (html_content read_root) = true.
Proof. split; vm_compute; reflexivity. Qed.

(** ** The handler on a fenced answer *)

(** X17. An answer that is a [```json] block around a body without
    backticks is handled as its body: when [json.loads] accepts the body
    and the value can be rendered, the reply is the download response
    carrying that value. *)
Theorem fenced_answer_handled_as_body `{Collaborators}
    (pdf_file : UploadFile) (data : bytes) (c : N) (rest : str)
    (response : GenerateContentResponse) (ws1 body ws2 : str) (v : Json.value) :
  upload_read pdf_file = Return data ->
  extract_text_from_pdf data = Return (c :: rest) ->
  model_generate_content (full_prompt_of (c :: rest)) = Return response ->
  response_text response = Return (ws1 ++ FENCE_JSON ++ body ++ FENCE ++ ws2) ->
  forallb Str.isspace ws1 = true ->
  forallb Str.isspace ws2 = true ->
  forallb (fun c => negb (c =? 96)) body = true ->
  json_loads body = Return v ->
  render_error v = None ->
  (post_extract_data pdf_file).1 = Reply (download_response v).
Proof.
  intros Hread Htext Hmodel Hresp Hws1 Hws2 Hbody Hloads Hrender.
  unfold post_extract_data.
  rewrite extract_data_from_pdf_paths, Hread, Htext, Hmodel, Hresp.
  unfold clean_response.
  rewrite (FenceMore.strip_fenced_block ws1 body ws2 Hws1 Hws2).
  rewrite (FenceMore.strip_fences_fenced body Hbody).
  now rewrite Hloads, Hrender.
Qed.

Lemma fenced_answer_handled_as_body_witness :
  (@post_extract_data Scenario.fenced_libs (Scenario.upload [])).1
  = Reply (download_response Scenario.fenced_value).
Proof.
  apply (@fenced_answer_handled_as_body Scenario.fenced_libs (Scenario.upload [])
           [] (hd 0 Scenario.listing_text) (tl Scenario.listing_text)
           (Return Scenario.fenced_answer) [] Scenario2.fenced_body []);
    vm_compute; reflexivity.
Defined.
